(** * StrategyThrust client (src/app.jsx): session store, feature gate,
      job lifecycle and polling, as a shallow embedding.

    The file follows the layout of [src/app.jsx]:

    - the fragment of JavaScript values and operators the program relies on
      (truthiness, [||], [?.], property access, string coercion);
    - [localStorage] and the storage helpers ([loadSessionToken],
      [loadAutoDownload], ...);
    - [apiFetch] and the job API helpers, over a small monad of asynchronous
      tasks whose suspension points are the network requests;
    - [featureGate];
    - the [JobWizard] component: its hook cells, what a render closes over,
      and the handlers [refreshUploads], [pollOnce], [onInit], [onSubmit];
    - the [App] root: [VerifyScreen]'s effect and [onVerified];
    - the rest of the program: manual download and upload in [JobWizard],
      the admin panel, the advisor chat, the login form, logout, and the
      step the app starts at on a page load.

    Definitions come first; the properties of the specification follow, then
    further properties read off the code. *)

From Stdlib Require Import ZArith String Ascii List Bool Lia.
From stdpp Require Import base option list gmap strings pretty.

Local Set Warnings "-register-all".
Local Open Scope Z_scope.
Local Open Scope string_scope.

(** ** JavaScript values

    Payloads come out of [res.json()] / [JSON.parse], so a value is a JSON
    value or [undefined].  Numbers are the integers (the program only ever
    tests a number for truthiness or prints it).  An object is the list of
    its own properties; a read takes the first binding of the key. *)

Inductive jsval : Type :=
| JUndefined
| JNull
| JBool (b : bool)
| JNum (n : Z)
| JStr (s : string)
| JArr (xs : list jsval)
| JObj (fields : list (string * jsval)).

(** The result of evaluating something that may throw. *)
Inductive completion (A : Type) : Type :=
| Normal (a : A)
| Abrupt (exn : string).
Arguments Normal {A} a.
Arguments Abrupt {A} exn.

Definition cbind {A B} (c : completion A) (k : A -> completion B) : completion B :=
  match c with
  | Normal a => k a
  | Abrupt e => Abrupt e
  end.

Declare Scope completion_scope.
Delimit Scope completion_scope with completion.
Notation "'try!' x := c 'in' k" := (cbind c (fun x => k))
  (at level 10, x name, c at level 100, k at level 200) : completion_scope.

(** [try { return c } catch { return d }] *)
Definition catch {A} (c : completion A) (d : A) : A :=
  match c with
  | Normal a => a
  | Abrupt _ => d
  end.

(** ToBoolean: [!!v]. *)
Definition truthy (v : jsval) : bool :=
  match v with
  | JUndefined | JNull => false
  | JBool b => b
  | JNum n => negb (n =? 0)%Z
  | JStr s => negb (String.eqb s "")
  | JArr _ | JObj _ => true
  end.

(** [a || b] *)
Definition js_or (a b : jsval) : jsval := if truthy a then a else b.
Infix "|||" := js_or (at level 50, left associativity).

Fixpoint assoc (k : string) (fields : list (string * jsval)) : jsval :=
  match fields with
  | [] => JUndefined
  | (k', v) :: rest => if String.eqb k k' then v else assoc k rest
  end.

(** [v?.k].  On [undefined] and [null] the chain short-circuits; on a
    primitive or an array the lookup goes to the prototype, which has none of
    the property names this program reads with [?.] or [.] ([features],
    [tier], [subscription], [admin], [status], [job], [files],
    [missing_required_sets], [session_token], [error], [job_id], ...). *)
Definition js_oget (v : jsval) (k : string) : jsval :=
  match v with
  | JObj fields => assoc k fields
  | _ => JUndefined
  end.

(** [v.k]: a TypeError on [undefined] and [null]. *)
Definition js_get (v : jsval) (k : string) : completion jsval :=
  match v with
  | JUndefined | JNull => Abrupt "TypeError"
  | _ => Normal (js_oget v k)
  end.

(** [v === "s"] *)
Definition strict_eq_str (v : jsval) (s : string) : bool :=
  match v with
  | JStr s' => String.eqb s' s
  | _ => false
  end.

(** [Array.prototype.join], given the coercion of one element. *)
Definition join_elems (elem : jsval -> string) (sep : string) : list jsval -> string :=
  fix go (l : list jsval) : string :=
    match l with
    | [] => ""
    | x :: l' =>
        match l' with
        | [] => elem x
        | _ :: _ => elem x ++ sep ++ go l'
        end
    end.

(** ToString: [String(v)] and the coercion done by template literals. *)
Fixpoint ToString (v : jsval) : string :=
  match v with
  | JUndefined => "undefined"
  | JNull => "null"
  | JBool true => "true"
  | JBool false => "false"
  | JNum n => pretty n
  | JStr s => s
  | JArr xs =>
      join_elems (fun x => match x with
                           | JUndefined | JNull => ""
                           | _ => ToString x
                           end) "," xs
  | JObj _ => "[object Object]"
  end.

(** [v.join(sep)]: only arrays have the method. *)
Definition js_join (v : jsval) (sep : string) : completion string :=
  match v with
  | JUndefined | JNull => Abrupt "TypeError"
  | JArr xs =>
      Normal (join_elems (fun x => match x with
                                   | JUndefined | JNull => ""
                                   | _ => ToString x
                                   end) sep xs)
  | _ => Abrupt "TypeError"
  end.

(** [v.length] for a [v] that is not [undefined] or [null]. *)
Definition js_length (v : jsval) : jsval :=
  match v with
  | JArr xs => JNum (Z.of_nat (length xs))
  | JStr s => JNum (Z.of_nat (String.length s))
  | _ => js_oget v "length"
  end.

(** ** Backend config *)

Module ROUTES.
Definition health := "/health".
Definition requestLink := "/auth/request-link".
Definition verify := "/auth/verify".
Definition access := "/access".
Definition uploadsInit := "/uploads/init".
Definition uploadsPut := "/uploads/put".
Definition uploadsList := "/uploads/list".
Definition jobsSubmit := "/jobs/submit".
Definition jobsStatus := "/jobs/status".
Definition jobsDownload := "/jobs/download".
Definition adminApprove := "/admin/approve".
Definition adminJobs := "/admin/jobs".
Definition chat := "/chat".
End ROUTES.

Module JOB_TYPES.
Definition SECTOR_REPORT := "sector_report".
Definition COMPANY_ANALYSIS := "company_analysis".
Definition MASTER_PLAN := "strategic_master_plan".
End JOB_TYPES.

Module LS_KEYS.
Definition session := "st_session_v4".
Definition sessionToken := "st_session_token_v1".
Definition autoDownload := "st_auto_download_v1".
End LS_KEYS.

(** ** localStorage

    Every access throws when the browser denies storage to the page; a write
    also throws when the quota is exhausted.  The helpers of [app.jsx] wrap
    each access in [try]/[catch]. *)

Record Storage : Type := mkStorage {
  items : gmap string string;
  denied : bool;
  quota_full : bool;
}.

Definition getItem (st : Storage) (k : string) : completion (option string) :=
  if denied st then Abrupt "SecurityError" else Normal (items st !! k).

Definition setItem (st : Storage) (k v : string) : completion Storage :=
  if denied st then Abrupt "SecurityError"
  else if quota_full st then Abrupt "QuotaExceededError"
  else Normal (mkStorage (<[k := v]> (items st)) (denied st) (quota_full st)).

Definition removeItem (st : Storage) (k : string) : completion Storage :=
  if denied st then Abrupt "SecurityError"
  else Normal (mkStorage (delete k (items st)) (denied st) (quota_full st)).

(** [getItem] answers [null] for a missing key. *)
Definition of_item (o : option string) : jsval :=
  match o with
  | Some s => JStr s
  | None => JNull
  end.

Definition loadSessionToken (st : Storage) : jsval :=
  catch (try! raw := getItem st LS_KEYS.sessionToken in
         Normal (of_item raw ||| JNull))%completion
        JNull.

Definition saveSessionToken (t : jsval) (st : Storage) : Storage :=
  if negb (truthy t) then st
  else catch (setItem st LS_KEYS.sessionToken (ToString t)) st.

Definition clearSessionToken (st : Storage) : Storage :=
  catch (removeItem st LS_KEYS.sessionToken) st.

Definition clearSession (st : Storage) : Storage :=
  catch (removeItem st LS_KEYS.session) st.

Definition loadAutoDownload (st : Storage) : bool :=
  catch (try! raw := getItem st LS_KEYS.autoDownload in
         Normal (match raw with
                 | None => true
                 | Some s => String.eqb s "true"
                 end))%completion
        true.

Definition saveAutoDownload (v : jsval) (st : Storage) : Storage :=
  catch (setItem st LS_KEYS.autoDownload (ToString (JBool (truthy v)))) st.

(** ** Asynchronous tasks

    An [async] function is a tree whose nodes are the things the body does
    to the world outside its own locals: read or update the component's hook
    cells ([Get], [Upd]), show a toast or navigate ([Emit]), throw, and
    [await] a network request ([Fetch]).  The tree under a [Fetch] is the
    continuation that the event loop resumes when the response arrives; what
    the body closed over (its locals, the render it was created in) is fixed
    in the tree, what it reaches through setters and refs is the live state
    [S] at the time the continuation runs. *)

Record Request : Type := mkRequest {
  req_url : string;
  req_method : string;
  req_authorization : option string;
  req_body : option string;
}.

(** What [fetch] did with a request: it got a response, whose body is kept
    decoded ([res.json()], or [res.text()] as a string), or the timeout
    aborted it, or the transport failed. *)
Inductive Transport : Type :=
| Responded (status : Z) (payload : jsval)
| Aborted
| NetworkError (message : string).

Inductive Event : Type :=
| ENet (req : Request)
| EToastError (msg : string)
| EToastOk (msg : string)
| ENavigate (url : string).

Inductive async (S A : Type) : Type :=
| Ret (a : A)
| Throw (exn : string)
| Get (k : S -> async S A)
| Upd (f : S -> S) (k : async S A)
| Emit (e : Event) (k : async S A)
| Fetch (req : Request) (k : Transport -> async S A).
Arguments Ret {S A} a.
Arguments Throw {S A} exn.
Arguments Get {S A} k.
Arguments Upd {S A} f k.
Arguments Emit {S A} e k.
Arguments Fetch {S A} req k.

Fixpoint async_bind {S A B} (k : A -> async S B) (t : async S A) : async S B :=
  match t with
  | Ret a => k a
  | Throw e => Throw e
  | Get h => Get (fun s => async_bind k (h s))
  | Upd f t' => Upd f (async_bind k t')
  | Emit e t' => Emit e (async_bind k t')
  | Fetch req h => Fetch req (fun r => async_bind k (h r))
  end.

#[global] Instance async_ret {S} : MRet (async S) := fun A a => Ret a.
#[global] Instance async_mbind {S} : MBind (async S) := fun A B k t => async_bind k t.

Definition update {S} (f : S -> S) : async S unit := Upd f (Ret tt).
Definition emit {S} (e : Event) : async S unit := Emit e (Ret tt).
Definition read {S A} (f : S -> A) : async S A := Get (fun s => Ret (f s)).
Definition skip {S} : async S unit := Ret tt.

(** A throwing expression inside a task. *)
Definition lift {S A} (c : completion A) : async S A :=
  match c with
  | Normal a => Ret a
  | Abrupt e => Throw e
  end.

Inductive outcome (A : Type) : Type :=
| Returned (a : A)
| Thrown (exn : string).
Arguments Returned {A} a.
Arguments Thrown {A} exn.

(** Run a task to completion against a network that answers each request;
    the trace lists, in order, the requests sent and the toasts and
    navigations performed. *)
Fixpoint run {S A} (net : Request -> Transport) (t : async S A) (s : S)
  : outcome A * S * list Event :=
  match t with
  | Ret a => (Returned a, s, [])
  | Throw e => (Thrown e, s, [])
  | Get h => run net (h s) s
  | Upd f t' => run net t' (f s)
  | Emit e t' => let '(o, s', tr) := run net t' s in (o, s', e :: tr)
  | Fetch req h => let '(o, s', tr) := run net (h (net req)) s in (o, s', ENet req :: tr)
  end.

(** Run a task up to its next suspension point. *)
Inductive progress (S A : Type) : Type :=
| Finished (o : outcome A) (s : S) (tr : list Event)
| InFlight (req : Request) (k : Transport -> async S A) (s : S) (tr : list Event).
Arguments Finished {S A} o s tr.
Arguments InFlight {S A} req k s tr.

Fixpoint advance {S A} (t : async S A) (s : S) : progress S A :=
  match t with
  | Ret a => Finished (Returned a) s []
  | Throw e => Finished (Thrown e) s []
  | Get h => advance (h s) s
  | Upd f t' => advance t' (f s)
  | Emit e t' =>
      match advance t' s with
      | Finished o s' tr => Finished o s' (e :: tr)
      | InFlight req k s' tr => InFlight req k s' (e :: tr)
      end
  | Fetch req h => InFlight req h s []
  end.

Definition final_state {S A} (r : outcome A * S * list Event) : S := snd (fst r).
Definition trace {S A} (r : outcome A * S * list Event) : list Event := snd r.
Definition result {S A} (r : outcome A * S * list Event) : outcome A := fst (fst r).

(** ** API helper *)

Inductive ApiResult : Type :=
| ApiOk (status : Z) (data : jsval)
| ApiFail (status : Z) (error : jsval).

Definition r_ok (r : ApiResult) : bool :=
  match r with ApiOk _ _ => true | ApiFail _ _ => false end.
Definition r_status (r : ApiResult) : Z :=
  match r with ApiOk st _ => st | ApiFail st _ => st end.
Definition r_data (r : ApiResult) : jsval :=
  match r with ApiOk _ d => d | ApiFail _ _ => JUndefined end.
Definition r_error (r : ApiResult) : jsval :=
  match r with ApiOk _ _ => JUndefined | ApiFail _ e => e end.

(** [res.ok] *)
Definition res_ok (status : Z) : bool := ((200 <=? status) && (status <=? 299))%Z.

(** What [apiFetch] returns for each thing [fetch] can do. *)
Definition api_result (t : Transport) : ApiResult :=
  match t with
  | Responded status payload =>
      if res_ok status then ApiOk status payload
      else ApiFail status
             (js_oget payload "error" ||| payload ||| JStr ("HTTP " ++ pretty status))
  | Aborted => ApiFail 0 (JStr "timeout")
  | NetworkError message => ApiFail 0 (JStr message)
  end.

(** [encodeURIComponent] on the UTF-8 bytes of its argument: every byte
    outside [A-Z a-z 0-9 - _ . ! ~ * ' ( )] becomes [%XX]. *)
Definition unreserved (c : ascii) : bool :=
  let n := nat_of_ascii c in
  ((65 <=? n) && (n <=? 90))%nat || ((97 <=? n) && (n <=? 122))%nat
  || ((48 <=? n) && (n <=? 57))%nat
  || existsb (Ascii.eqb c) (list_ascii_of_string "-_.!~*'()").

Definition hex_digit (n : nat) : ascii :=
  nth n (list_ascii_of_string "0123456789ABCDEF") "0"%char.

Fixpoint encodeURIComponent (s : string) : string :=
  match s with
  | EmptyString => ""
  | String c s' =>
      (if unreserved c then String c ""
       else String "%" (String (hex_digit (nat_of_ascii c / 16))
                          (String (hex_digit (nat_of_ascii c mod 16)) "")))
      ++ encodeURIComponent s'
  end.

(** ** Feature Gate *)

Record Capabilities : Type := mkCapabilities {
  app_access : bool;
  tier : jsval;
  language_addon : bool;
  strategic_master_plan : bool;
  advisor_chatbot : bool;
  is_admin : bool;
}.

#[global] Instance completion_ret : MRet completion := fun A a => Normal a.
#[global] Instance completion_mbind : MBind completion := fun A B k c => cbind c k.

Definition featureGate (access : jsval) : completion Capabilities :=
  let feats := js_oget access "features" ||| JObj [] in
  f_app_access ← js_get feats "app_access";
  f_tier ← js_get feats "tier";
  f_language_addon ← js_get feats "language_addon";
  f_strategic_master_plan ← js_get feats "strategic_master_plan";
  f_advisor_chatbot ← js_get feats "advisor_chatbot";
  Normal {|
    app_access := truthy f_app_access;
    tier := f_tier ||| js_oget access "tier" ||| JStr "none";
    language_addon := truthy f_language_addon;
    strategic_master_plan := truthy f_strategic_master_plan;
    advisor_chatbot := truthy f_advisor_chatbot;
    is_admin := truthy (js_oget (js_oget access "subscription") "admin");
  |}.

(** The most restrictive capability set. *)
Definition no_capabilities : Capabilities :=
  mkCapabilities false (JStr "none") false false false false.

(** ** A JSON printer

    [JSON.stringify] belongs to the platform and stays a parameter of the
    program below; this printer is the instance used when the program is
    evaluated on concrete inputs. *)

Definition dquote : string := String (ascii_of_nat 34) "".

Fixpoint json_escape (s : string) : string :=
  match s with
  | EmptyString => ""
  | String c s' =>
      (if Ascii.eqb c (ascii_of_nat 34) then String (ascii_of_nat 92) dquote
       else if Ascii.eqb c (ascii_of_nat 92) then String c (String c "")
       else if (nat_of_ascii c <? 32)%nat
            then String (ascii_of_nat 92)
                   ("u00" ++ String (hex_digit (nat_of_ascii c / 16))
                               (String (hex_digit (nat_of_ascii c mod 16)) ""))
            else String c "")
      ++ json_escape s'
  end.

Definition json_quote (s : string) : string := dquote ++ json_escape s ++ dquote.

Fixpoint json_text (v : jsval) : string :=
  match v with
  | JUndefined | JNull => "null"
  | JBool true => "true"
  | JBool false => "false"
  | JNum n => pretty n
  | JStr s => json_quote s
  | JArr xs => "[" ++ join_elems json_text "," xs ++ "]"
  | JObj fields =>
      "{" ++ String.concat ","
               ((fix members (l : list (string * jsval)) : list string :=
                   match l with
                   | [] => []
                   | (k, JUndefined) :: rest => members rest
                   | (k, x) :: rest => (json_quote k ++ ":" ++ json_text x) :: members rest
                   end) fields)
          ++ "}"
  end.

(** ** String methods

    Strings are kept as their UTF-8 bytes.  [String.prototype.trim] strips
    the WhiteSpace and LineTerminator characters of ECMAScript from both
    ends; these are their encodings. *)

Definition js_whitespace : list (list nat) :=
  [[9]; [10]; [11]; [12]; [13]; [32];
   [194; 160];
   [225; 154; 128];
   [226; 128; 128]; [226; 128; 129]; [226; 128; 130]; [226; 128; 131];
   [226; 128; 132]; [226; 128; 133]; [226; 128; 134]; [226; 128; 135];
   [226; 128; 136]; [226; 128; 137]; [226; 128; 138];
   [226; 128; 168]; [226; 128; 169];
   [226; 128; 175];
   [226; 129; 159];
   [227; 128; 128];
   [239; 187; 191]]%nat.

Fixpoint starts_with (p l : list nat) : bool :=
  match p, l with
  | [], _ => true
  | x :: p', y :: l' => Nat.eqb x y && starts_with p' l'
  | _ :: _, [] => false
  end.

(** Drop the sequences of [seqs] from the front of [l], as long as there is
    one; each round drops at least one byte. *)
Fixpoint strip (seqs : list (list nat)) (fuel : nat) (l : list nat) : list nat :=
  match fuel with
  | O => l
  | S fuel' =>
      match List.find (fun p => starts_with p l) seqs with
      | Some p => strip seqs fuel' (skipn (length p) l)
      | None => l
      end
  end.

Definition bytes_of (s : string) : list nat := map nat_of_ascii (list_ascii_of_string s).
Definition string_of_bytes (l : list nat) : string :=
  string_of_list_ascii (map ascii_of_nat l).

(** [s.trim()] *)
Definition js_trim (s : string) : string :=
  let l1 := strip js_whitespace (length (bytes_of s)) (bytes_of s) in
  string_of_bytes (rev (strip (map (@rev nat) js_whitespace) (length l1) (rev l1))).

(** [s.includes(sub)] *)
Definition js_includes (s sub : string) : bool :=
  match String.index 0 sub s with
  | Some _ => true
  | None => false
  end.

(** ** A JSON reader

    Like the printer above, the instance of [JSON.parse] used when the
    program is evaluated on concrete inputs.  It reads what the printer
    writes: objects, arrays, strings with the common escapes, integers,
    [true], [false], [null]; anything else is a syntax error. *)

Definition json_space (c : ascii) : bool :=
  existsb (Nat.eqb (nat_of_ascii c)) [9; 10; 13; 32]%nat.

Fixpoint json_skip (l : list ascii) : list ascii :=
  match l with
  | c :: l' => if json_space c then json_skip l' else l
  | [] => []
  end.

Definition is_digit (c : ascii) : bool :=
  ((48 <=? nat_of_ascii c) && (nat_of_ascii c <=? 57))%nat.

Fixpoint json_digits (acc : Z) (l : list ascii) : Z * list ascii :=
  match l with
  | c :: l' =>
      if is_digit c
      then json_digits (10 * acc + Z.of_nat (nat_of_ascii c - 48))%Z l'
      else (acc, l)
  | [] => (acc, [])
  end.

Definition hex_value (c : ascii) : option nat :=
  let n := nat_of_ascii c in
  if ((48 <=? n) && (n <=? 57))%nat then Some (n - 48)%nat
  else if ((65 <=? n) && (n <=? 70))%nat then Some (n - 55)%nat
  else if ((97 <=? n) && (n <=? 102))%nat then Some (n - 87)%nat
  else None.

(** The character an escape letter stands for. *)
Definition json_unescape (c : ascii) : option ascii :=
  let n := nat_of_ascii c in
  if Nat.eqb n 34 then Some (ascii_of_nat 34)
  else if Nat.eqb n 92 then Some (ascii_of_nat 92)
  else if Nat.eqb n 47 then Some (ascii_of_nat 47)
  else if Nat.eqb n 98 then Some (ascii_of_nat 8)
  else if Nat.eqb n 102 then Some (ascii_of_nat 12)
  else if Nat.eqb n 110 then Some (ascii_of_nat 10)
  else if Nat.eqb n 114 then Some (ascii_of_nat 13)
  else if Nat.eqb n 116 then Some (ascii_of_nat 9)
  else None.

Definition push_char (c : ascii) (r : option (string * list ascii))
  : option (string * list ascii) :=
  match r with
  | Some (s, rest) => Some (String c s, rest)
  | None => None
  end.

(** A string, from just after its opening quote. *)
Fixpoint json_string (l : list ascii) : option (string * list ascii) :=
  match l with
  | [] => None
  | c :: l1 =>
      if Nat.eqb (nat_of_ascii c) 34 then Some (EmptyString, l1)
      else if Nat.eqb (nat_of_ascii c) 92 then
        match l1 with
        | [] => None
        | e :: l2 =>
            if Nat.eqb (nat_of_ascii e) 117 then
              match l2 with
              | h1 :: h2 :: h3 :: h4 :: l3 =>
                  match hex_value h1, hex_value h2, hex_value h3, hex_value h4 with
                  | Some 0%nat, Some 0%nat, Some a, Some b =>
                      if (16 * a + b <? 128)%nat
                      then push_char (ascii_of_nat (16 * a + b)) (json_string l3)
                      else None
                  | _, _, _, _ => None
                  end
              | _ => None
              end
            else
              match json_unescape e with
              | Some c' => push_char c' (json_string l2)
              | None => None
              end
        end
      else push_char c (json_string l1)
  end.

Fixpoint drop_prefix (p : list ascii) (l : list ascii) : option (list ascii) :=
  match p, l with
  | [], _ => Some l
  | x :: p', y :: l' => if Ascii.eqb x y then drop_prefix p' l' else None
  | _ :: _, [] => None
  end.

(** Set a member of an object being read: a repeated key keeps its place
    and takes the later value. *)
Fixpoint member_set (k : string) (v : jsval) (fields : list (string * jsval))
  : list (string * jsval) :=
  match fields with
  | [] => [(k, v)]
  | (k', v') :: rest =>
      if String.eqb k k' then (k, v) :: rest else (k', v') :: member_set k v rest
  end.

Fixpoint json_value (fuel : nat) (l : list ascii) : option (jsval * list ascii) :=
  match fuel with
  | O => None
  | S fuel' =>
      match json_skip l with
      | [] => None
      | c :: r =>
          let n := nat_of_ascii c in
          if Nat.eqb n 34 then
            match json_string r with
            | Some (s, r') => Some (JStr s, r')
            | None => None
            end
          else if Nat.eqb n 91 then
            match json_skip r with
            | c' :: r' =>
                if Nat.eqb (nat_of_ascii c') 93 then Some (JArr [], r')
                else json_elements fuel' r []
            | [] => None
            end
          else if Nat.eqb n 123 then
            match json_skip r with
            | c' :: r' =>
                if Nat.eqb (nat_of_ascii c') 125 then Some (JObj [], r')
                else json_members fuel' r []
            | [] => None
            end
          else if Nat.eqb n 45 then
            match r with
            | d :: _ =>
                if is_digit d
                then let '(z, r') := json_digits 0 r in Some (JNum (- z), r')
                else None
            | [] => None
            end
          else if is_digit c then
            let '(z, r') := json_digits 0 (c :: r) in Some (JNum z, r')
          else
            match drop_prefix (list_ascii_of_string "null") (c :: r),
                  drop_prefix (list_ascii_of_string "true") (c :: r),
                  drop_prefix (list_ascii_of_string "false") (c :: r) with
            | Some r', _, _ => Some (JNull, r')
            | _, Some r', _ => Some (JBool true, r')
            | _, _, Some r' => Some (JBool false, r')
            | _, _, _ => None
            end
      end
  end
with json_elements (fuel : nat) (l : list ascii) (acc : list jsval)
  : option (jsval * list ascii) :=
  match fuel with
  | O => None
  | S fuel' =>
      match json_value fuel' l with
      | Some (v, r) =>
          match json_skip r with
          | c :: r' =>
              if Nat.eqb (nat_of_ascii c) 44 then json_elements fuel' r' (acc ++ [v])
              else if Nat.eqb (nat_of_ascii c) 93 then Some (JArr (acc ++ [v]), r')
              else None
          | [] => None
          end
      | None => None
      end
  end
with json_members (fuel : nat) (l : list ascii) (acc : list (string * jsval))
  : option (jsval * list ascii) :=
  match fuel with
  | O => None
  | S fuel' =>
      match json_skip l with
      | q :: r0 =>
          if Nat.eqb (nat_of_ascii q) 34 then
            match json_string r0 with
            | Some (k, r1) =>
                match json_skip r1 with
                | c :: r2 =>
                    if Nat.eqb (nat_of_ascii c) 58 then
                      match json_value fuel' r2 with
                      | Some (v, r3) =>
                          match json_skip r3 with
                          | c' :: r4 =>
                              if Nat.eqb (nat_of_ascii c') 44
                              then json_members fuel' r4 (member_set k v acc)
                              else if Nat.eqb (nat_of_ascii c') 125
                              then Some (JObj (member_set k v acc), r4)
                              else None
                          | [] => None
                          end
                      | None => None
                      end
                    else None
                | [] => None
                end
            | None => None
            end
          else None
      | [] => None
      end
  end.

Definition json_parse (s : string) : completion jsval :=
  match json_value (2 * String.length s + 2)%nat (list_ascii_of_string s) with
  | Some (v, rest) =>
      match json_skip rest with
      | [] => Normal v
      | _ :: _ => Abrupt "SyntaxError"
      end
  | None => Abrupt "SyntaxError"
  end.

(** ** The address bar *)

Record Url : Type := mkUrl {
  url_base : string;
  searchParams : list (string * string);
  url_hash : string;
}.

(** [u.searchParams.get(name)] *)
Definition searchParams_get (name : string) (u : Url) : jsval :=
  match List.find (fun p => String.eqb (fst p) name) (searchParams u) with
  | Some p => JStr (snd p)
  | None => JNull
  end.

(** [u.searchParams.delete(name)] *)
Definition searchParams_delete (name : string) (u : Url) : Url :=
  mkUrl (url_base u)
        (List.filter (fun p => negb (String.eqb (fst p) name)) (searchParams u))
        (url_hash u).

(** ** Deliverable Builder: the hook cells of [JobWizard]

    [useState] cells and the [autoDownloadedRef] ref.  A render reads the
    cells once; the handlers created by that render keep those values for as
    long as they run, across every [await].  The setters and the ref act on
    the cells themselves. *)

(** The form: [{ topic, company_or_url, notes, auto_design }], filled from
    text fields and a checkbox. *)
Record Inputs : Type := mkInputs {
  topic : string;
  company_or_url : string;
  notes : string;
  auto_design : bool;
}.

Record Wizard : Type := mkWizard {
  jobType : string;
  inputs : Inputs;
  jobId : jsval;
  jobMeta : jsval;
  uploads : jsval;
  missingRequired : jsval;
  status : jsval;
  busy : bool;
  autoDownloadedRef : bool;
}.

Definition Wizard_mount : Wizard :=
  mkWizard JOB_TYPES.SECTOR_REPORT (mkInputs "" "" "" true)
           JNull JNull (JArr []) (JArr []) (JStr "draft") false false.

Definition setInputs (v : Inputs) (w : Wizard) : Wizard :=
  mkWizard (jobType w) v (jobId w) (jobMeta w) (uploads w) (missingRequired w)
           (status w) (busy w) (autoDownloadedRef w).
Definition setJobId (v : jsval) (w : Wizard) : Wizard :=
  mkWizard (jobType w) (inputs w) v (jobMeta w) (uploads w) (missingRequired w)
           (status w) (busy w) (autoDownloadedRef w).
Definition setJobMeta (v : jsval) (w : Wizard) : Wizard :=
  mkWizard (jobType w) (inputs w) (jobId w) v (uploads w) (missingRequired w)
           (status w) (busy w) (autoDownloadedRef w).
Definition setUploads (v : jsval) (w : Wizard) : Wizard :=
  mkWizard (jobType w) (inputs w) (jobId w) (jobMeta w) v (missingRequired w)
           (status w) (busy w) (autoDownloadedRef w).
Definition setMissingRequired (v : jsval) (w : Wizard) : Wizard :=
  mkWizard (jobType w) (inputs w) (jobId w) (jobMeta w) (uploads w) v
           (status w) (busy w) (autoDownloadedRef w).
Definition setStatus (v : jsval) (w : Wizard) : Wizard :=
  mkWizard (jobType w) (inputs w) (jobId w) (jobMeta w) (uploads w) (missingRequired w)
           v (busy w) (autoDownloadedRef w).
Definition setBusy (b : bool) (w : Wizard) : Wizard :=
  mkWizard (jobType w) (inputs w) (jobId w) (jobMeta w) (uploads w) (missingRequired w)
           (status w) b (autoDownloadedRef w).
(** [autoDownloadedRef.current = b] *)
Definition set_autoDownloadedRef (b : bool) (w : Wizard) : Wizard :=
  mkWizard (jobType w) (inputs w) (jobId w) (jobMeta w) (uploads w) (missingRequired w)
           (status w) (busy w) b.

(** What the handlers of one render of [JobWizard] close over: the props
    and derived constants, and the cell values that render read.  The
    handlers take [jobType], [inputs], [jobId], [missingRequired] and
    [status] from [snapshot]; [autoDownloadedRef] is a ref and is always read
    from the cells. *)
Record Render : Type := mkRender {
  token : jsval;
  g : Capabilities;
  autoDownloadEnabled : bool;
  snapshot : Wizard;
}.

(** The top of the component body. *)
Definition JobWizard (session : jsval) (autoDownloadEnabled : bool)
    (st : Storage) (w : Wizard) : completion Render :=
  let token := js_oget session "session_token" ||| loadSessionToken st ||| JNull in
  let access := js_oget session "access" in
  g ← featureGate access;
  Normal (mkRender token g autoDownloadEnabled w).

Definition toastError {S} (msg : string) : async S unit := emit (EToastError msg).
Definition toastOk {S} (msg : string) : async S unit := emit (EToastOk msg).
(** [window.location.href = url] *)
Definition triggerDownloadUrl {S} (url : string) : async S unit := emit (ENavigate url).

(** ** The cells of the other components *)

(** [AdminPanel]: the job id typed by the admin, the busy flag, the queue. *)
Record Admin : Type := mkAdmin {
  admin_jobId : string;
  admin_busy : bool;
  queue : jsval;
}.

Definition Admin_mount : Admin := mkAdmin "" false (JArr []).

Definition setAdminBusy (b : bool) (a : Admin) : Admin :=
  mkAdmin (admin_jobId a) b (queue a).
Definition setQueue (v : jsval) (a : Admin) : Admin :=
  mkAdmin (admin_jobId a) (admin_busy a) v.

(** What the handlers of one render of [AdminPanel] close over. *)
Record AdminRender : Type := mkAdminRender {
  admin_token : jsval;
  admin_snapshot : Admin;
}.

(** The top of the component body: it renders nothing, and creates no
    handler, unless the grant makes the user an admin. *)
Definition AdminPanel (session : jsval) (st : Storage) (a : Admin)
  : completion (option AdminRender) :=
  let token := js_oget session "session_token" ||| loadSessionToken st ||| JNull in
  g ← featureGate (js_oget session "access");
  if negb (is_admin g) then Normal None
  else Normal (Some (mkAdminRender token a)).

(** [AdvisorChatDock]: a message of the conversation, and the cells. *)
Record Msg : Type := mkMsg {
  role : string;
  text : string;
}.

Record Chat : Type := mkChat {
  chat_open : bool;
  msgs : list Msg;
  chat_input : string;
  chat_loading : bool;
}.

Definition Chat_mount : Chat :=
  mkChat false
         [mkMsg "assistant"
                "Hi — I’m your Advisor. Ask me anything about your analysis, assumptions, or next steps."]
         "" false.

Definition setChatInput (v : string) (c : Chat) : Chat :=
  mkChat (chat_open c) (msgs c) v (chat_loading c).
Definition setChatLoading (b : bool) (c : Chat) : Chat :=
  mkChat (chat_open c) (msgs c) (chat_input c) b.
(** [setMsgs(m => [...m, x])] *)
Definition appendMsg (x : Msg) (c : Chat) : Chat :=
  mkChat (chat_open c) (msgs c ++ [x]) (chat_input c) (chat_loading c).

Record ChatRender : Type := mkChatRender {
  chat_token : jsval;
  chat_g : Capabilities;
  chat_snapshot : Chat;
}.

Definition AdvisorChatDock (session : jsval) (st : Storage) (c : Chat)
  : completion ChatRender :=
  let token := js_oget session "session_token" ||| loadSessionToken st ||| JNull in
  g ← featureGate (js_oget session "access");
  Normal (mkChatRender token g c).

(** [LoginScreen]: the email field and the loading flag. *)
Record Login : Type := mkLogin {
  email : string;
  login_loading : bool;
}.

Definition setLoginLoading (b : bool) (l : Login) : Login := mkLogin (email l) b.

(** ** The root component's state

    The cells of [App] and of [VerifyScreen], and the two parts of the
    browser that the verify flow writes: [localStorage] and the address.
    The address is kept parsed; [new URL(window.location.href)] and
    [replaceState] on the page's own address do not throw.  The timers that
    clear a toast are left out: a toast is an event of the trace. *)

Record App : Type := mkApp {
  step : string;
  session : jsval;
  loading : bool;
  storage : Storage;
  location : Url;
}.

Definition setStep (v : string) (a : App) : App :=
  mkApp v (session a) (loading a) (storage a) (location a).
Definition setSession (v : jsval) (a : App) : App :=
  mkApp (step a) v (loading a) (storage a) (location a).
Definition setLoading (b : bool) (a : App) : App :=
  mkApp (step a) (session a) b (storage a) (location a).
Definition with_storage (f : Storage -> Storage) (a : App) : App :=
  mkApp (step a) (session a) (loading a) (f (storage a)) (location a).
(** [window.history.replaceState({}, document.title, u.toString())] *)
Definition replaceState (u : Url) (a : App) : App :=
  mkApp (step a) (session a) (loading a) (storage a) u.

Section Platform.

(** [API_BASE] comes from the page's configuration ([window.ST]);
    [JSON.stringify] and [JSON.parse] are the platform's. *)
Variable API_BASE : string.
Variable JSON_stringify : jsval -> string.
Variable JSON_parse : string -> completion jsval.

(** *** Storage of the session snapshot *)

Definition safeJsonParse (raw : string) : jsval := catch (JSON_parse raw) JNull.

Definition loadSession (st : Storage) : jsval :=
  catch (raw ← getItem st LS_KEYS.session;
         Normal (safeJsonParse (ToString (of_item raw ||| JStr ""))))
        JNull.

Definition saveSession (sess : jsval) (st : Storage) : Storage :=
  catch (setItem st LS_KEYS.session (JSON_stringify sess)) st.

(** *** apiFetch and the job API helpers *)

Definition apiFetch {S} (path method : string) (body token : jsval) : async S ApiResult :=
  Fetch {| req_url := API_BASE ++ path;
           req_method := method;
           req_authorization :=
             if truthy token then Some ("Bearer " ++ ToString token) else None;
           req_body := if truthy body then Some (JSON_stringify body) else None |}
        (fun t => Ret (api_result t)).

Definition verifyMagicToken {S} (magicToken : jsval) : async S ApiResult :=
  apiFetch (ROUTES.verify ++ "?token=" ++ encodeURIComponent (ToString magicToken))
           "GET" JUndefined JNull.

Definition jobsInit {S} (token job_type inputs : jsval) : async S ApiResult :=
  apiFetch ROUTES.uploadsInit "POST"
           (JObj [("data", JObj [("job_type", job_type); ("inputs", inputs)])]) token.

Definition jobsListUploads {S} (token job_id : jsval) : async S ApiResult :=
  apiFetch (ROUTES.uploadsList ++ "?job_id=" ++ encodeURIComponent (ToString job_id))
           "GET" JUndefined token.

Definition jobsSubmit {S} (token job_id : jsval) : async S ApiResult :=
  apiFetch ROUTES.jobsSubmit "POST" (JObj [("data", JObj [("job_id", job_id)])]) token.

Definition jobsStatus {S} (token job_id : jsval) : async S ApiResult :=
  r1 ← apiFetch (ROUTES.jobsStatus ++ "?job_id=" ++ encodeURIComponent (ToString job_id))
                "GET" JUndefined token;
  if r_ok r1 then mret r1
  else if (r_status r1 =? 404)%Z then jobsListUploads token job_id
  else mret r1.

Definition buildDownloadUrl (job_id sessionToken : jsval) : string :=
  let t := if truthy sessionToken
           then "&token=" ++ encodeURIComponent (ToString sessionToken) else "" in
  API_BASE ++ ROUTES.jobsDownload ++ "?job_id=" ++ encodeURIComponent (ToString job_id) ++ t.

(** *** The handlers of [JobWizard], for the render [rd] that created them *)

Definition refreshUploads (rd : Render) (id : jsval) : async Wizard unit :=
  if negb (truthy id) then mret tt else
  r ← jobsListUploads (token rd) id;
  if negb (r_ok r) then toastError ("uploads/list failed: " ++ ToString (r_error r)) else
  update (setUploads (js_oget (r_data r) "files" ||| JArr []));;
  update (setMissingRequired (js_oget (r_data r) "missing_required_sets" ||| JArr []));;
  update (setStatus (js_oget (r_data r) "status" ||| status (snapshot rd))).

Definition pollOnce (rd : Render) (id : jsval) : async Wizard unit :=
  if negb (truthy id) then mret tt else
  r ← jobsStatus (token rd) id;
  if negb (r_ok r) then mret tt else
  let st := js_oget (r_data r) "status"
            ||| js_oget (js_oget (r_data r) "job") "status" ||| JNull in
  (if truthy st then update (setStatus st) else skip);;
  (if truthy (js_oget (r_data r) "files") then
     files ← lift (js_get (r_data r) "files");
     update (setUploads (files ||| JArr []));;
     update (setMissingRequired (js_oget (r_data r) "missing_required_sets" ||| JArr []))
   else skip);;
  downloaded ← read autoDownloadedRef;
  if autoDownloadEnabled rd && negb downloaded && strict_eq_str st "delivered" then
    update (set_autoDownloadedRef true);;
    let url := buildDownloadUrl id (token rd) in
    toastOk "Delivered! Auto-download started.";;
    triggerDownloadUrl url
  else skip.

Definition onInit (rd : Render) : async Wizard unit :=
  if negb (app_access (g rd)) && negb (is_admin (g rd))
  then toastError "Access blocked: subscription is not active." else
  if negb (truthy (token rd))
  then toastError "Missing session token. Please sign in via magic link again." else
  update (setBusy true);;
  update (set_autoDownloadedRef false);;
  let payloadInputs :=
    JObj [("auto_design", JBool (auto_design (inputs (snapshot rd))));
          ("topic", JStr (topic (inputs (snapshot rd))));
          ("company_or_url", JStr (company_or_url (inputs (snapshot rd))));
          ("notes", JStr (notes (inputs (snapshot rd))))] in
  r ← jobsInit (token rd) (JStr (jobType (snapshot rd))) payloadInputs;
  update (setBusy false);;
  if negb (r_ok r) then toastError ("uploads/init failed: " ++ ToString (r_error r)) else
  update (setJobId (js_oget (r_data r) "job_id"));;
  update (setJobMeta (JObj [("required", js_oget (r_data r) "required" ||| JArr []);
                            ("optional", js_oget (r_data r) "optional" ||| JArr []);
                            ("warnings", js_oget (r_data r) "warnings" ||| JArr [])]));;
  update (setUploads (JArr []));;
  update (setMissingRequired (js_oget (r_data r) "required" ||| JArr []));;
  update (setStatus (JStr "draft"));;
  toastOk ("Job created: " ++ ToString (js_oget (r_data r) "job_id")).

Definition onSubmit (rd : Render) : async Wizard unit :=
  if negb (truthy (jobId (snapshot rd))) then toastError "Create a job first (Init)." else
  refreshUploads rd (jobId (snapshot rd));;
  if truthy (js_length (missingRequired (snapshot rd) ||| JArr [])) then
    sets ← lift (js_join (missingRequired (snapshot rd)) ", ");
    toastError ("Missing required file sets: " ++ sets)
  else
  update (setBusy true);;
  r ← jobsSubmit (token rd) (jobId (snapshot rd));
  update (setBusy false);;
  if negb (r_ok r) then toastError ("jobs/submit failed: " ++ ToString (r_error r)) else
  toastOk "Submitted for admin approval.";;
  update (setStatus (JStr "pending_review"));;
  pollOnce rd (jobId (snapshot rd)).

(** *** App root: magic link handling *)

Definition onVerified (now : string) (payload : jsval) : async App unit :=
  let sessionToken := js_oget payload "session_token" ||| JNull in
  if negb (truthy sessionToken) then
    toastError "Verify response missing session_token. Check backend /auth/verify output.";;
    update (setStep "login")
  else
  update (with_storage (saveSessionToken sessionToken));;
  email ← lift (js_get payload "email");
  access ← lift (js_get payload "access");
  app_url ← lift (js_get payload "app_url");
  let sess := JObj [("email", email); ("access", access); ("app_url", app_url);
                    ("verified_at", JStr now); ("session_token", sessionToken)] in
  update (with_storage (saveSession sess));;
  update (setSession sess);;
  u ← read location;
  update (replaceState (searchParams_delete "token" u));;
  toastOk "Verified. Welcome!";;
  update (setStep "app").

(** The effect of [VerifyScreen], with the [onError] that [App] passes. *)
Definition VerifyScreen (now : string) (magic : jsval) : async App unit :=
  if negb (truthy magic) then mret tt else
  r ← verifyMagicToken magic;
  update (setLoading false);;
  if negb (r_ok r) then
    toastError ("Verify failed: " ++ ToString (r_error r));;
    update (setStep "login")
  else onVerified now (r_data r).

Definition logout : async App unit :=
  update (with_storage clearSession);;
  update (with_storage clearSessionToken);;
  update (setSession JNull);;
  update (setStep "login").


(** *** JobWizard: manual download and upload *)


(** The body the browser sends for a [FormData]. *)
Variable FormData_body : list (string * jsval) -> string.

(** [apiFetch] called with [isFormData: true]: the body goes out as the form
    itself instead of its JSON text. *)
Definition apiFetch_formData {S} (path method : string) (fd : list (string * jsval))
    (token : jsval) : async S ApiResult :=
  Fetch {| req_url := API_BASE ++ path;
           req_method := method;
           req_authorization :=
             if truthy token then Some ("Bearer " ++ ToString token) else None;
           req_body := Some (FormData_body fd) |}
        (fun t => Ret (api_result t)).

(** [fd.append] stores a value that is not a file as its string. *)
Definition jobsUpload {S} (token job_id file_set file : jsval) : async S ApiResult :=
  apiFetch_formData ROUTES.uploadsPut "POST"
    [("job_id", JStr (ToString job_id)); ("file_set", JStr (ToString file_set));
     ("file", file)]
    token.

Definition onUpload (rd : Render) (fileSet file : jsval) : async Wizard unit :=
  if negb (truthy (jobId (snapshot rd))) then toastError "Create a job first (Init)." else
  if negb (truthy file) then mret tt else
  update (setBusy true);;
  r ← jobsUpload (token rd) (jobId (snapshot rd)) fileSet file;
  update (setBusy false);;
  if negb (r_ok r) then toastError ("upload failed: " ++ ToString (r_error r)) else
  name ← lift (js_get file "name");
  toastOk ("Uploaded: " ++ ToString name);;
  refreshUploads rd (jobId (snapshot rd)).

(** *** Admin Panel *)

Definition approve (ar : AdminRender) : async Admin unit :=
  let id := js_trim (admin_jobId (admin_snapshot ar)) in
  if negb (truthy (JStr id)) then toastError "Enter a job_id." else
  update (setAdminBusy true);;
  r ← apiFetch ROUTES.adminApprove "POST" (JObj [("data", JObj [("job_id", JStr id)])])
               (admin_token ar);
  update (setAdminBusy false);;
  if negb (r_ok r) then toastError ("admin/approve failed: " ++ ToString (r_error r)) else
  toastOk ("Approved & generated: " ++ id).

Definition loadQueue (ar : AdminRender) : async Admin unit :=
  r ← apiFetch (ROUTES.adminJobs ++ "?status=pending_review") "GET" JUndefined
               (admin_token ar);
  if negb (r_ok r) then toastError ("admin/jobs failed: " ++ ToString (r_error r)) else
  update (setQueue (js_oget (r_data r) "jobs" ||| JArr []));;
  toastOk ("Queue loaded: " ++ ToString (js_length (js_oget (r_data r) "jobs" ||| JArr []))).

(** *** Advisor Chat Dock *)

(** The body of the chat request: the conversation the render saw, then the
    new message. *)
Definition chat_payload (history : list Msg) (message : string) : jsval :=
  JObj [("data",
         JObj [("messages",
                JArr (map (fun m =>
                             JObj [("role",
                                    JStr (if String.eqb (role m) "assistant"
                                          then "assistant" else "user"));
                                   ("content", JStr (text m))])
                          history
                      ++ [JObj [("role", JStr "user"); ("content", JStr message)]]))])].

Definition send (cr : ChatRender) : async Chat unit :=
  let text := js_trim (chat_input (chat_snapshot cr)) in
  if negb (truthy (JStr text)) then mret tt else
  if negb (advisor_chatbot (chat_g cr)) && negb (is_admin (chat_g cr))
  then toastError "Advisor Chatbot is not included in your tier." else
  if negb (truthy (chat_token cr))
  then toastError "Missing session token. Please sign in again." else
  update (setChatInput "");;
  update (appendMsg (mkMsg "user" text));;
  update (setChatLoading true);;
  let payload := chat_payload (msgs (chat_snapshot cr)) text in
  r ← apiFetch ROUTES.chat "POST" payload (chat_token cr);
  update (setChatLoading false);;
  if negb (r_ok r)
  then update (appendMsg (mkMsg "assistant" ("(Error) " ++ ToString (r_error r))))
  else
    let reply := js_oget (r_data r) "reply" ||| JStr "No reply." in
    update (appendMsg (mkMsg "assistant" (ToString reply))).

(** *** Login *)

(** [String.prototype.toLowerCase] is the platform's. *)
Variable toLowerCase : string -> string.

Definition requestMagicLink {S} (e : string) : async S ApiResult :=
  apiFetch ROUTES.requestLink "POST" (JObj [("data", JObj [("email", JStr e)])]) JNull.

(** [LoginScreen]'s submit, with the two callbacks it gets as props. *)
Definition LoginScreen_submit (onRequested : string -> jsval -> async Login unit)
    (onError : string -> async Login unit) (l : Login) : async Login unit :=
  let e := toLowerCase (js_trim (email l)) in
  if negb (truthy (JStr e)) || negb (js_includes e "@")
  then onError "Please enter a valid email." else
  update (setLoginLoading true);;
  r ← requestMagicLink e;
  update (setLoginLoading false);;
  if negb (r_ok r) then onError ("Magic link failed: " ++ ToString (r_error r)) else
  onRequested e (js_oget (r_data r) "ttl_seconds").

(** *** App root: where the app starts *)

(** The one-time token of the address the page was opened with. *)
Definition tokenFromUrl (u : Url) : jsval :=
  JStr (js_trim (ToString (searchParams_get "token" u ||| JStr ""))) ||| JNull.

(** The step chosen when the app mounts, and again when the intro ends. *)
Definition first_step (fromUrl session : jsval) (st : Storage) : string :=
  if truthy fromUrl then "verify"
  else if truthy (js_oget session "access")
          && truthy (js_oget session "session_token" ||| loadSessionToken st)
       then "app"
       else "login".

(** The root component as it mounts on a page load: the session cell starts
    from the stored snapshot. *)
Definition App_mount (st : Storage) (u : Url) : App :=
  mkApp "intro" (loadSession st) true st u.

(** The mount effect of [App], for the token and the session of the first
    render; the stored token is read when the effect runs. *)
Definition App_effect (fromUrl session : jsval) : async App unit :=
  st ← read storage;
  update (setStep (first_step fromUrl session st)).

(** The root component after a page load: mount, then the mount effect of
    [App] (which sends nothing).  The screen of the chosen step mounts after
    that: see [page_load_mounted]. *)
Definition page_load (st : Storage) (u : Url) : App :=
  final_state (run (fun _ => Aborted)
                   (App_effect (tokenFromUrl u) (session (App_mount st u)))
                   (App_mount st u)).

(** *** Dashboard: the auto-download switch *)

(** The cell starts from the stored preference; an effect stores the cell
    after the first render and after every change. *)
Definition Dashboard_mount (st : Storage) : bool := loadAutoDownload st.
Definition Dashboard_effect (autoDownload : bool) (st : Storage) : Storage :=
  saveAutoDownload (JBool autoDownload) st.

(** [App] renders the dashboard at the step [app], when the session cell
    is truthy: [step === "app" && session && <Dashboard .../>]. *)
Definition renders_Dashboard (a : App) : bool :=
  String.eqb (step a) "app" && truthy (session a).

(** The dashboard mounts: its cell is read from the store, and its effect
    stores the cell.  Of what the dashboard contains, [AdminPanel] has no
    effect, the interval effect of [JobWizard] returns at once (no job yet)
    and the effect of [AdvisorChatDock] only scrolls. *)
Definition Dashboard_mounted (a : App) : App :=
  with_storage (fun st => Dashboard_effect (Dashboard_mount st) st) a.

(** A page load with the screen of the chosen step mounted, before any
    response from the network: after the mount effect of [App] the
    component renders again, and at the step [app] the dashboard mounts.
    The effects of [LoginScreen] (the health check) and of [VerifyScreen]
    start with a request and touch neither the store nor the address before
    its response. *)
Definition page_load_mounted (st : Storage) (u : Url) : App :=
  let a := page_load st u in
  if renders_Dashboard a then Dashboard_mounted a else a.

(** *** Observations used to state the properties *)

(** The status a poll reads out of a payload:
    [r.data?.status || r.data?.job?.status || null]. *)
Definition polled_status (data : jsval) : jsval :=
  js_oget data "status" ||| js_oget (js_oget data "job") "status" ||| JNull.

(** The status lookup of one poll cycle, for a given network. *)
Definition status_lookup (net : Request -> Transport) (rd : Render) (id : jsval)
  : outcome ApiResult :=
  result (run net (jobsStatus (token rd) id) Wizard_mount).

(** The cycle's response reports [delivered]. *)
Definition observes_delivered (net : Request -> Transport) (rd : Render) (id : jsval) : bool :=
  match status_lookup net rd id with
  | Returned r => r_ok r && strict_eq_str (polled_status (r_data r)) "delivered"
  | Thrown _ => false
  end.

(** Successive poll cycles for job [id].  Each cycle is a call of [pollOnce]
    from some render of the component (the interval's, or [onSubmit]'s),
    answered by its own network. *)
Fixpoint poll_cycles (id : jsval) (cycles : list (Render * (Request -> Transport)))
    (w : Wizard) : Wizard * list Event :=
  match cycles with
  | [] => (w, [])
  | (rd, net) :: rest =>
      let '(_, w1, tr1) := run net (pollOnce rd id) w in
      let '(w2, tr2) := poll_cycles id rest w1 in
      (w2, (tr1 ++ tr2)%list)
  end.

Definition is_navigation (e : Event) : bool :=
  match e with ENavigate _ => true | _ => false end.

Definition is_request (e : Event) : bool :=
  match e with ENet _ => true | _ => false end.

(** The download actions handed to the browser. *)
Definition downloads (tr : list Event) : list Event := List.filter is_navigation tr.

(** The requests sent. *)
Definition requests (tr : list Event) : list Event := List.filter is_request tr.

Definition submit_request (tok id : jsval) : Request :=
  {| req_url := API_BASE ++ ROUTES.jobsSubmit;
     req_method := "POST";
     req_authorization := if truthy tok then Some ("Bearer " ++ ToString tok) else None;
     req_body := Some (JSON_stringify (JObj [("data", JObj [("job_id", id)])])) |}.

Definition list_request (tok id : jsval) : Request :=
  {| req_url := API_BASE ++ ROUTES.uploadsList ++ "?job_id=" ++ encodeURIComponent (ToString id);
     req_method := "GET";
     req_authorization := if truthy tok then Some ("Bearer " ++ ToString tok) else None;
     req_body := None |}.

Definition status_request (tok id : jsval) : Request :=
  {| req_url := API_BASE ++ ROUTES.jobsStatus ++ "?job_id=" ++ encodeURIComponent (ToString id);
     req_method := "GET";
     req_authorization := if truthy tok then Some ("Bearer " ++ ToString tok) else None;
     req_body := None |}.

Definition verify_request (magic : jsval) : Request :=
  {| req_url := API_BASE ++ ROUTES.verify ++ "?token=" ++ encodeURIComponent (ToString magic);
     req_method := "GET";
     req_authorization := None;
     req_body := None |}.

Definition is_not_found (t : Transport) : bool :=
  match t with
  | Responded status _ => (status =? 404)%Z
  | _ => false
  end.

(** The request [onInit] sends for the render [rd]. *)
Definition init_request (rd : Render) : Request :=
  let i := inputs (snapshot rd) in
  {| req_url := API_BASE ++ ROUTES.uploadsInit;
     req_method := "POST";
     req_authorization :=
       if truthy (token rd) then Some ("Bearer " ++ ToString (token rd)) else None;
     req_body :=
       Some (JSON_stringify
               (JObj [("data",
                       JObj [("job_type", JStr (jobType (snapshot rd)));
                             ("inputs",
                              JObj [("auto_design", JBool (auto_design i));
                                    ("topic", JStr (topic i));
                                    ("company_or_url", JStr (company_or_url i));
                                    ("notes", JStr (notes i))])])])) |}.

(** The cells after [onInit] has applied the response [r] to [w]. *)
Definition after_init (r : ApiResult) (w : Wizard) : Wizard :=
  if r_ok r then
    mkWizard (jobType w) (inputs w)
             (js_oget (r_data r) "job_id")
             (JObj [("required", js_oget (r_data r) "required" ||| JArr []);
                    ("optional", js_oget (r_data r) "optional" ||| JArr []);
                    ("warnings", js_oget (r_data r) "warnings" ||| JArr [])])
             (JArr [])
             (js_oget (r_data r) "required" ||| JArr [])
             (JStr "draft") false false
  else
    mkWizard (jobType w) (inputs w) (jobId w) (jobMeta w) (uploads w)
             (missingRequired w) (status w) false false.

(** What [jobsStatus] returns, and the requests it sends, for a given
    network. *)
Definition lookup_result (net : Request -> Transport) (tok id : jsval) : ApiResult :=
  if is_not_found (net (status_request tok id))
  then api_result (net (list_request tok id))
  else api_result (net (status_request tok id)).

Definition lookup_trace (net : Request -> Transport) (tok id : jsval) : list Event :=
  if is_not_found (net (status_request tok id))
  then [ENet (status_request tok id); ENet (list_request tok id)]
  else [ENet (status_request tok id)].

(** A poll that got the payload [d] fires the delivery trigger. *)
Definition poll_fires (rd : Render) (d : jsval) (w : Wizard) : bool :=
  autoDownloadEnabled rd && negb (autoDownloadedRef w)
  && strict_eq_str (polled_status d) "delivered".

(** The cells after a poll has applied the payload [d] to [w]. *)
Definition poll_applied (rd : Render) (d : jsval) (w : Wizard) : Wizard :=
  mkWizard (jobType w) (inputs w) (jobId w) (jobMeta w)
           (if truthy (js_oget d "files") then js_oget d "files" else uploads w)
           (if truthy (js_oget d "files")
            then js_oget d "missing_required_sets" ||| JArr []
            else missingRequired w)
           (if truthy (polled_status d) then polled_status d else status w)
           (busy w)
           (autoDownloadedRef w || poll_fires rd d w).

(** What that poll shows and hands to the browser. *)
Definition poll_emitted (rd : Render) (id d : jsval) (w : Wizard) : list Event :=
  if poll_fires rd d w
  then [EToastOk "Delivered! Auto-download started.";
        ENavigate (buildDownloadUrl id (token rd))]
  else [].

(** The specification's notion of a well-formed access grant (its section 3):
    an object of the shape [{features: {...}, subscription: {...}}].  This
    follows the specification's words; [app.jsx] computes nothing of the
    kind. *)
Definition spec_well_formed_grant (access : jsval) : bool :=
  match access with
  | JObj _ =>
      match js_oget access "features", js_oget access "subscription" with
      | JObj _, JObj _ => true
      | _, _ => false
      end
  | _ => false
  end.

Definition is_object (v : jsval) : bool :=
  match v with JObj _ => true | _ => false end.

(** The requests of the other handlers. *)
Definition upload_request (tok id fileSet file : jsval) : Request :=
  {| req_url := API_BASE ++ ROUTES.uploadsPut;
     req_method := "POST";
     req_authorization := if truthy tok then Some ("Bearer " ++ ToString tok) else None;
     req_body := Some (FormData_body [("job_id", JStr (ToString id));
                                      ("file_set", JStr (ToString fileSet));
                                      ("file", file)]) |}.

Definition approve_request (tok : jsval) (id : string) : Request :=
  {| req_url := API_BASE ++ ROUTES.adminApprove;
     req_method := "POST";
     req_authorization := if truthy tok then Some ("Bearer " ++ ToString tok) else None;
     req_body := Some (JSON_stringify (JObj [("data", JObj [("job_id", JStr id)])])) |}.

Definition chat_request (tok : jsval) (history : list Msg) (message : string) : Request :=
  {| req_url := API_BASE ++ ROUTES.chat;
     req_method := "POST";
     req_authorization := if truthy tok then Some ("Bearer " ++ ToString tok) else None;
     req_body := Some (JSON_stringify (chat_payload history message)) |}.

Definition link_request (e : string) : Request :=
  {| req_url := API_BASE ++ ROUTES.requestLink;
     req_method := "POST";
     req_authorization := None;
     req_body := Some (JSON_stringify (JObj [("data", JObj [("email", JStr e)])])) |}.

Definition is_error_toast (e : Event) : bool :=
  match e with EToastError _ => true | _ => false end.

(** *** Scenarios

    Concrete sessions, cells and servers on which the program is evaluated
    below. *)

Definition default_API_BASE : string := "https://api.strategythrust.com".

Definition empty_storage : Storage := mkStorage ∅ false false.

Definition storage_auto_off : Storage :=
  mkStorage {[ LS_KEYS.autoDownload := "false" ]} false false.

Definition demo_access : jsval :=
  JObj [("features",
         JObj [("app_access", JBool true); ("tier", JStr "pro");
               ("language_addon", JBool false);
               ("strategic_master_plan", JBool true);
               ("advisor_chatbot", JBool false)]);
        ("subscription", JObj [("admin", JBool false)])].

Definition demo_session : jsval :=
  JObj [("email", JStr "a@b.com"); ("access", demo_access);
        ("app_url", JStr "https://app.strategythrust.com");
        ("verified_at", JStr "2026-01-01T00:00:00.000Z");
        ("session_token", JStr "tok1")].

(** The render of [JobWizard] for [demo_session] over the cells [w]. *)
Definition demo_render (autoDownload : bool) (w : Wizard) : Render :=
  match JobWizard demo_session autoDownload empty_storage w with
  | Normal rd => rd
  | Abrupt _ => mkRender JNull no_capabilities autoDownload w
  end.

(** A render for a session without an active subscription. *)
Definition blocked_render (w : Wizard) : Render :=
  match JobWizard (JObj [("email", JStr "a@b.com"); ("session_token", JStr "tok1")])
                  true empty_storage w with
  | Normal rd => rd
  | Abrupt _ => mkRender JNull no_capabilities true w
  end.

(** A server given by the address of each request it knows. *)
Definition answers (table : list (string * Transport)) (q : Request) : Transport :=
  match List.find (fun row => String.eqb (fst row) (req_url q)) table with
  | Some row => snd row
  | None => Responded 500 (JObj [("error", JStr "unexpected request")])
  end.

Definition sector_inputs : Inputs := mkInputs "Aviation in Turkey" "" "" true.

(** The cells once [init] has created [job_1] with one required set. *)
Definition job_1_draft : Wizard :=
  mkWizard JOB_TYPES.SECTOR_REPORT sector_inputs (JStr "job_1")
           (JObj [("required", JArr [JStr "financials"]);
                  ("optional", JArr [JStr "notes"]);
                  ("warnings", JArr [])])
           (JArr []) (JArr [JStr "financials"]) (JStr "draft") false false.

Definition financials_file : jsval :=
  JObj [("file_set", JStr "financials"); ("filename", JStr "fin.xlsx");
        ("key", JStr "k1"); ("size", JNum 1024)].

(** The cells once the client has seen the required set uploaded. *)
Definition job_1_complete : Wizard :=
  mkWizard JOB_TYPES.SECTOR_REPORT sector_inputs (JStr "job_1")
           (JObj [("required", JArr [JStr "financials"]);
                  ("optional", JArr [JStr "notes"]);
                  ("warnings", JArr [])])
           (JArr [financials_file]) (JArr []) (JStr "draft") false false.

(** The cells once a second [init] has replaced [job_1] by [job_2]. *)
Definition job_2_draft : Wizard :=
  mkWizard JOB_TYPES.SECTOR_REPORT sector_inputs (JStr "job_2")
           (JObj [("required", JArr [JStr "market"]);
                  ("optional", JArr []);
                  ("warnings", JArr [])])
           (JArr []) (JArr [JStr "market"]) (JStr "draft") false false.

Definition list_job_1 : string :=
  "https://api.strategythrust.com/uploads/list?job_id=job_1".
Definition status_job_1 : string :=
  "https://api.strategythrust.com/jobs/status?job_id=job_1".
Definition submit_url : string := "https://api.strategythrust.com/jobs/submit".
Definition init_url : string := "https://api.strategythrust.com/uploads/init".
Definition verify_tok : string :=
  "https://api.strategythrust.com/auth/verify?token=magic-1".

(** The listing once [financials] has been uploaded out of band. *)
Definition listing_complete : Transport :=
  Responded 200 (JObj [("files", JArr [financials_file]);
                       ("missing_required_sets", JArr []);
                       ("status", JStr "draft")]).

(** The listing while [financials] is still missing. *)
Definition listing_incomplete : Transport :=
  Responded 200 (JObj [("files", JArr []);
                       ("missing_required_sets", JArr [JStr "financials"]);
                       ("status", JStr "draft")]).

(** A listing that carries no status. *)
Definition listing_without_status : Transport :=
  Responded 200 (JObj [("files", JArr [financials_file]);
                       ("missing_required_sets", JArr [])]).

(** A server that answers every request alike. *)
Definition always (t : Transport) : Request -> Transport := fun _ => t.

Definition delivered : Transport := Responded 200 (JObj [("status", JStr "delivered")]).
Definition generating : Transport := Responded 200 (JObj [("status", JStr "generating")]).
Definition ack : Transport := Responded 200 (JObj [("ok", JBool true)]).

(** The answer to the first [init]. *)
Definition init_job_1 : Transport :=
  Responded 200 (JObj [("job_id", JStr "job_1"); ("required", JArr [JStr "financials"]);
                       ("optional", JArr [JStr "notes"])]).

Definition pending_review : Transport :=
  Responded 200 (JObj [("status", JStr "pending_review")]).

(** The answer to the second [init]. *)
Definition init_job_2 : Transport :=
  Responded 200 (JObj [("job_id", JStr "job_2"); ("required", JArr [JStr "market"])]).

(** The listing of [job_1] once it has been delivered. *)
Definition listing_delivered : Transport :=
  Responded 200 (JObj [("files", JArr [financials_file]);
                       ("missing_required_sets", JArr []);
                       ("status", JStr "delivered")]).

(** The payload of the verify round trip of the specification. *)
Definition verify_payload : jsval :=
  JObj [("ok", JBool true); ("session_token", JStr "tok1");
        ("access", demo_access); ("email", JStr "a@b.com")].

Definition verify_address : Url :=
  mkUrl "https://app.strategythrust.com/auth/verify" [("token", "magic-1")] "".

Definition App_verifying (st : Storage) : App :=
  mkApp "verify" JNull true st verify_address.

(** Instances of the other platform functions, for concrete inputs: the
    fields of a form written as JSON text (enough to tell one upload from
    another), and the lower-casing of the ASCII letters. *)
Definition form_text (fd : list (string * jsval)) : string := json_text (JObj fd).

Definition ascii_lower (c : ascii) : ascii :=
  let n := nat_of_ascii c in
  if ((65 <=? n) && (n <=? 90))%nat then ascii_of_nat (n + 32) else c.

Fixpoint ascii_lowercase (s : string) : string :=
  match s with
  | EmptyString => EmptyString
  | String c s' => String (ascii_lower c) (ascii_lowercase s')
  end.

(** A session whose grant makes the user an admin. *)
Definition admin_session : jsval :=
  JObj [("email", JStr "root@b.com");
        ("access", JObj [("features", JObj [("app_access", JBool true)]);
                         ("subscription", JObj [("admin", JBool true)])]);
        ("session_token", JStr "tok1")].

(** The render of [AdminPanel] for the admin, with [typed] in the id field. *)
Definition admin_render (typed : string) : AdminRender :=
  match AdminPanel admin_session empty_storage (mkAdmin typed false (JArr [])) with
  | Normal (Some ar) => ar
  | _ => mkAdminRender JNull (mkAdmin typed false (JArr []))
  end.

(** The render of [AdvisorChatDock] for a session, with [typed] in the
    input. *)
Definition chat_render (sess : jsval) (typed : string) : ChatRender :=
  match AdvisorChatDock sess empty_storage
                        (mkChat true (msgs Chat_mount) typed false) with
  | Normal cr => cr
  | Abrupt _ => mkChatRender JNull no_capabilities Chat_mount
  end.

(** The file picked for the [financials] set. *)
Definition picked_file : jsval :=
  JObj [("name", JStr "fin.xlsx"); ("size", JNum 1024)].

Definition upload_url : string := "https://api.strategythrust.com/uploads/put".

(** [job_1] once delivered, the download already started. *)
Definition job_1_delivered : Wizard :=
  set_autoDownloadedRef true (setStatus (JStr "delivered") job_1_complete).

(** The address of the app, without a one-time token. *)
Definition app_address : Url := mkUrl "https://app.strategythrust.com/" [] "".

(** The app, signed in, as [onVerified] leaves it for [demo_session]. *)
Definition App_signed_in : App :=
  mkApp "app" demo_session false
        (mkStorage {[ LS_KEYS.sessionToken := "tok1" ]} false false)
        app_address.

(** The payload of a second verification. *)
Definition verify_payload_2 : jsval :=
  JObj [("ok", JBool true); ("session_token", JStr "tok2");
        ("access", demo_access); ("email", JStr "c@d.com")].

(** * Properties *)

(** ** Running tasks *)

Lemma run_bind {S A B} (net : Request -> Transport) (t : async S A)
    (k : A -> async S B) (s : S) :
  run net (t ≫= k) s =
    match run net t s with
    | (Returned a, s1, tr1) =>
        let '(o, s2, tr2) := run net (k a) s1 in (o, s2, (tr1 ++ tr2)%list)
    | (Thrown e, s1, tr1) => (Thrown e, s1, tr1)
    end.
Proof.
  revert s. induction t as [a|e|h IH|f t IH|e t IH|req h IH]; intros s; cbn.
  - destruct (run net (k a) s) as [[o s2] tr2]. reflexivity.
  - reflexivity.
  - apply IH.
  - apply IH.
  - change (async_bind k t) with (t ≫= k). rewrite IH.
    destruct (run net t s) as [[[a|x] s1] tr1]; [|reflexivity].
    destruct (run net (k a) s1) as [[o s2] tr2]. reflexivity.
  - change (async_bind k (h (net req))) with (h (net req) ≫= k). rewrite IH.
    destruct (run net (h (net req)) s) as [[[a|x] s1] tr1]; [|reflexivity].
    destruct (run net (k a) s1) as [[o s2] tr2]. reflexivity.
Qed.

Lemma run_async_bind {S A B} (net : Request -> Transport) (t : async S A)
    (k : A -> async S B) (s : S) :
  run net (async_bind k t) s =
    match run net t s with
    | (Returned a, s1, tr1) =>
        let '(o, s2, tr2) := run net (k a) s1 in (o, s2, (tr1 ++ tr2)%list)
    | (Thrown e, s1, tr1) => (Thrown e, s1, tr1)
    end.
Proof. exact (run_bind net t k s). Qed.

Lemma run_advance {S A} (net : Request -> Transport) (t : async S A) (s : S) :
  run net t s =
    match advance t s with
    | Finished o s1 tr1 => (o, s1, tr1)
    | InFlight req k s1 tr1 =>
        let '(o, s2, tr2) := run net (k (net req)) s1 in
        (o, s2, (tr1 ++ ENet req :: tr2)%list)
    end.
Proof.
  revert s. induction t as [a|e|h IH|f t IH|e t IH|req h IH]; intros s; cbn;
    try reflexivity; try apply IH.
  rewrite IH. destruct (advance t s) as [o s1 tr1|req k s1 tr1]; [reflexivity|].
    destruct (run net (k (net req)) s1) as [[o s2] tr2]. reflexivity.
Qed.

Lemma run_apiFetch {S} net (path method : string) (body tok : jsval) (s : S) :
  run net (apiFetch path method body tok) s =
    let req := {| req_url := API_BASE ++ path;
                  req_method := method;
                  req_authorization :=
                    if truthy tok then Some ("Bearer " ++ ToString tok) else None;
                  req_body := if truthy body then Some (JSON_stringify body) else None |} in
    (Returned (api_result (net req)), s, [ENet req]).
Proof. reflexivity. Qed.

(** Each API helper is one request and the decoding of its answer. *)
Lemma jobsListUploads_fetch {S} (tok id : jsval) :
  @jobsListUploads S tok id
  = Fetch (list_request tok id) (fun t => Ret (api_result t)).
Proof. reflexivity. Qed.

Lemma jobsSubmit_fetch {S} (tok id : jsval) :
  @jobsSubmit S tok id
  = Fetch (submit_request tok id) (fun t => Ret (api_result t)).
Proof. reflexivity. Qed.

Lemma verifyMagicToken_fetch {S} (magic : jsval) :
  @verifyMagicToken S magic
  = Fetch (verify_request magic) (fun t => Ret (api_result t)).
Proof. reflexivity. Qed.

Lemma jobsStatus_fetch {S} (tok id : jsval) :
  @jobsStatus S tok id
  = Fetch (status_request tok id)
          (fun t => if r_ok (api_result t) then Ret (api_result t)
                    else if (r_status (api_result t) =? 404)%Z
                         then Fetch (list_request tok id) (fun t' => Ret (api_result t'))
                         else Ret (api_result t)).
Proof. reflexivity. Qed.

(** ** JavaScript operators *)

Lemma js_get_truthy (v : jsval) (k : string) :
  truthy v = true -> js_get v k = Normal (js_oget v k).
Proof. destruct v; cbn; intros H; try discriminate; reflexivity. Qed.

Lemma js_get_of_oget (v : jsval) (k k' : string) :
  truthy (js_oget v k) = true -> js_get v k' = Normal (js_oget v k').
Proof. destruct v; cbn; intros H; try discriminate; reflexivity. Qed.

Lemma js_or_truthy (a b : jsval) : truthy a = true -> a ||| b = a.
Proof. unfold js_or. intros ->. reflexivity. Qed.

Lemma js_or_falsy (a b : jsval) : truthy a = false -> a ||| b = b.
Proof. unfold js_or. intros ->. reflexivity. Qed.

Lemma truthy_or_object (a : jsval) (fields : list (string * jsval)) :
  truthy (a ||| JObj fields) = true.
Proof. unfold js_or. destruct (truthy a) eqn:E; [exact E | reflexivity]. Qed.

Lemma js_oget_not_object (v : jsval) (k : string) :
  is_object v = false -> js_oget v k = JUndefined.
Proof. destruct v; cbn; intros H; try discriminate; reflexivity. Qed.

(** ** Storage *)

(** C10: the auto-download preference defaults to enabled.  [loadAutoDownload]
    answers [true] when storage cannot be read and when nothing is stored
    under its key, and [raw === "true"] when a value [raw] is stored; so it
    answers [false] only for a stored value other than ["true"]. *)
Theorem loadAutoDownload_default_enabled (st : Storage) :
  (denied st = true -> loadAutoDownload st = true)
  /\ (denied st = false -> items st !! LS_KEYS.autoDownload = None ->
      loadAutoDownload st = true)
  /\ (forall raw : string,
        denied st = false -> items st !! LS_KEYS.autoDownload = Some raw ->
        loadAutoDownload st = String.eqb raw "true")
  /\ (loadAutoDownload st = false <->
      denied st = false
      /\ exists raw : string,
           items st !! LS_KEYS.autoDownload = Some raw /\ raw <> "true").
Proof.
  unfold loadAutoDownload, getItem.
  destruct (denied st) eqn:Hd; cbn.
  - repeat split; try discriminate; try reflexivity.
    intros [H _]. discriminate.
  - destruct (items st !! LS_KEYS.autoDownload) as [raw|] eqn:Hraw; cbn.
    + repeat split; try discriminate; try reflexivity.
      * intros raw' _ [= <-]. reflexivity.
      * exists raw. split; [reflexivity|].
        intros ->. discriminate.
      * intros [_ (raw' & [= <-] & Hne)].
        destruct (String.eqb_spec raw "true"); [contradiction | reflexivity].
    + repeat split; try discriminate; try reflexivity.
      intros [_ (raw' & Habs & _)]. discriminate.
Qed.

(** ** Feature Gate *)

Lemma featureGate_eq (access : jsval) :
  let feats := js_oget access "features" ||| JObj [] in
  featureGate access =
    Normal {| app_access := truthy (js_oget feats "app_access");
              tier := js_oget feats "tier" ||| js_oget access "tier" ||| JStr "none";
              language_addon := truthy (js_oget feats "language_addon");
              strategic_master_plan := truthy (js_oget feats "strategic_master_plan");
              advisor_chatbot := truthy (js_oget feats "advisor_chatbot");
              is_admin := truthy (js_oget (js_oget access "subscription") "admin") |}.
Proof.
  intros feats. unfold featureGate. fold feats.
  assert (Hf : truthy feats = true) by apply truthy_or_object.
  rewrite !(js_get_truthy feats) by exact Hf. reflexivity.
Qed.

(** C5 (amended): [featureGate] never throws.  It returns the
    all-restrictive default for [null], [undefined] and every input that is
    not an object, and for an object whose [features], [tier] and
    [subscription.admin] are absent or falsy.  In general each field is
    derived from the grant alone: the flags are the truthiness of
    [features.<flag>], [tier] is [features.tier], else the grant's own
    [tier], else ["none"], and [is_admin] is the truthiness of
    [subscription.admin]. *)
Theorem featureGate_total_and_derived (access : jsval) :
  (let feats := js_oget access "features" ||| JObj [] in
   featureGate access =
     Normal {| app_access := truthy (js_oget feats "app_access");
               tier := js_oget feats "tier" ||| js_oget access "tier" ||| JStr "none";
               language_addon := truthy (js_oget feats "language_addon");
               strategic_master_plan := truthy (js_oget feats "strategic_master_plan");
               advisor_chatbot := truthy (js_oget feats "advisor_chatbot");
               is_admin := truthy (js_oget (js_oget access "subscription") "admin") |})
  /\ (is_object access = false -> featureGate access = Normal no_capabilities)
  /\ (truthy (js_oget access "features") = false ->
      truthy (js_oget access "tier") = false ->
      truthy (js_oget (js_oget access "subscription") "admin") = false ->
      featureGate access = Normal no_capabilities).
Proof.
  split; [apply featureGate_eq|]. split.
  - intros Hobj. rewrite featureGate_eq.
    rewrite !(js_oget_not_object access) by exact Hobj. reflexivity.
  - intros Hfeat Htier Hadmin. rewrite featureGate_eq.
    rewrite (js_or_falsy (js_oget access "features")) by exact Hfeat.
    cbn [js_oget assoc truthy].
    rewrite Hadmin.
    rewrite (js_or_falsy JUndefined) by reflexivity.
    rewrite (js_or_falsy (js_oget access "tier")) by exact Htier.
    reflexivity.
Qed.

(** ** Status lookup *)

Lemma run_jobsStatus {S} (net : Request -> Transport) (tok id : jsval) (s : S) :
  run net (jobsStatus tok id) s =
    (Returned (lookup_result net tok id), s, lookup_trace net tok id).
Proof.
  rewrite jobsStatus_fetch. unfold lookup_result, lookup_trace.
  generalize (status_request tok id) (list_request tok id). intros q1 q2. cbn.
  destruct (net q1) as [st payload| |message]; cbn; try reflexivity.
  unfold res_ok.
  destruct (st =? 404)%Z eqn:E404.
  - apply Z.eqb_eq in E404. subst st. reflexivity.
  - destruct ((200 <=? st) && (st <=? 299))%Z eqn:Eok; cbn.
    + reflexivity.
    + rewrite E404. reflexivity.
Qed.

(** C7: the status lookup falls back to the upload listing exactly when the
    primary status query answers HTTP 404.  A successful primary response is
    returned without a second request; any other failure, including a
    timeout or a transport failure (both reported with status 0), is returned
    as it is. *)
Theorem jobsStatus_fallback_only_on_404 {S} (net : Request -> Transport)
    (tok id : jsval) (s : S) :
  run net (jobsStatus tok id) s =
    (if is_not_found (net (status_request tok id))
     then (Returned (api_result (net (list_request tok id))), s,
           [ENet (status_request tok id); ENet (list_request tok id)])
     else (Returned (api_result (net (status_request tok id))), s,
           [ENet (status_request tok id)]))
  /\ r_status (api_result Aborted) = 0
  /\ (forall message, r_status (api_result (NetworkError message)) = 0)
  /\ (is_not_found (net (status_request tok id)) = true <->
      r_ok (api_result (net (status_request tok id))) = false
      /\ r_status (api_result (net (status_request tok id))) = 404).
Proof.
  split; [|split; [reflexivity|split; [reflexivity|]]].
  - rewrite run_jobsStatus. unfold lookup_result, lookup_trace.
    destruct (is_not_found (net (status_request tok id))); reflexivity.
  - destruct (net (status_request tok id)) as [st payload| |message]; cbn.
    + unfold res_ok. split.
      * intros E. apply Z.eqb_eq in E. subst st. split; reflexivity.
      * intros [_ Hst].
        destruct ((200 <=? st) && (st <=? 299))%Z; cbn in Hst; subst st; reflexivity.
    + split; [discriminate|]. intros [_ H]. discriminate.
    + split; [discriminate|]. intros [_ H]. discriminate.
Qed.

(** ** Polling *)

Lemma status_lookup_eq (net : Request -> Transport) (rd : Render) (id : jsval) :
  status_lookup net rd id = Returned (lookup_result net (token rd) id).
Proof. unfold status_lookup. rewrite run_jobsStatus. reflexivity. Qed.

(** A poll whose lookup fails changes nothing. *)
Lemma run_pollOnce_fail (net : Request -> Transport) (rd : Render) (id : jsval)
    (w : Wizard) :
  truthy id = true ->
  r_ok (lookup_result net (token rd) id) = false ->
  run net (pollOnce rd id) w = (Returned tt, w, lookup_trace net (token rd) id).
Proof.
  intros Hid Hfail. unfold pollOnce. rewrite Hid. cbn [negb].
  rewrite run_bind, run_jobsStatus, Hfail. cbn.
  rewrite app_nil_r. reflexivity.
Qed.

(** When the status request of a poll is in flight, the task is suspended
    on a continuation that does not depend on the cells; whenever it is
    resumed, it applies the response to the cells as they are then. *)
Lemma pollOnce_suspends (rd : Render) (id : jsval) :
  truthy id = true ->
  exists k : Transport -> async Wizard unit,
    (forall w, advance (pollOnce rd id) w
               = InFlight (status_request (token rd) id) k w [])
    /\ forall (late : Transport) (net : Request -> Transport) (w : Wizard),
         let r := if is_not_found late
                  then api_result (net (list_request (token rd) id))
                  else api_result late in
         let tr0 := if is_not_found late
                    then [ENet (list_request (token rd) id)] else [] in
         run net (k late) w =
           if r_ok r
           then (Returned tt, poll_applied rd (r_data r) w,
                 (tr0 ++ poll_emitted rd id (r_data r) w)%list)
           else (Returned tt, w, tr0).
Proof.
  intros Hid. unfold pollOnce. rewrite Hid. cbn [negb].
  unfold jobsStatus, apiFetch. cbn [mbind async_mbind async_bind truthy].
  eexists. split.
  - intros w. cbn [advance]. reflexivity.
  - intros late net w. cbn beta.
    set (body := fun r0 : ApiResult => _).
    assert (Hbody : forall r1 w1,
      run net (body r1) w1 =
        if r_ok r1
        then (Returned tt, poll_applied rd (r_data r1) w1, poll_emitted rd id (r_data r1) w1)
        else (Returned tt, w1, [])).
    { intros r1 w1. subst body. cbn beta.
      destruct (r_ok r1) eqn:Hok; [|reflexivity]. cbn [negb].
      unfold poll_applied, poll_emitted, poll_fires.
      fold (polled_status (r_data r1)).
      destruct w1 as [jt inp jid jm up mr stt bs latch].
      destruct (truthy (polled_status (r_data r1))) eqn:Est;
        destruct (truthy (js_oget (r_data r1) "files")) eqn:Efiles.
      all: try rewrite (js_get_of_oget (r_data r1) "files" "files" Efiles).
      all: destruct (autoDownloadEnabled rd); destruct latch;
           destruct (strict_eq_str (polled_status (r_data r1)) "delivered"); cbn.
      all: try rewrite (js_or_truthy _ (JArr []) Efiles); reflexivity. }
    clearbody body. rewrite run_async_bind.
    destruct late as [st payload| |message]; cbn [api_result is_not_found].
    + unfold res_ok.
      destruct (st =? 404)%Z eqn:E404.
      * apply Z.eqb_eq in E404. subst st. cbn.
        rewrite Hbody.
        fold (list_request (token rd) id).
        destruct (r_ok (api_result (net (list_request (token rd) id)))); reflexivity.
      * destruct ((200 <=? st) && (st <=? 299))%Z eqn:Eok; cbn.
        -- rewrite Hbody. reflexivity.
        -- rewrite E404. cbn. rewrite Hbody. reflexivity.
    + cbn. rewrite Hbody. reflexivity.
    + cbn. rewrite Hbody. reflexivity.
Qed.

(** What a poll whose lookup succeeds does to the cells, and what it emits. *)
Lemma run_pollOnce_ok (net : Request -> Transport) (rd : Render) (id : jsval)
    (w : Wizard) :
  truthy id = true ->
  r_ok (lookup_result net (token rd) id) = true ->
  let d := r_data (lookup_result net (token rd) id) in
  run net (pollOnce rd id) w =
    (Returned tt, poll_applied rd d w,
     (lookup_trace net (token rd) id ++ poll_emitted rd id d w)%list).
Proof.
  intros Hid Hok d.
  destruct (pollOnce_suspends rd id Hid) as (k & Hk & Hrun).
  rewrite run_advance, Hk, Hrun. subst d. revert Hok.
  unfold lookup_result, lookup_trace.
  destruct (is_not_found (net (status_request (token rd) id))); intros ->; reflexivity.
Qed.

(** ** Rendering *)

(** [JobWizard] always renders: [featureGate] cannot throw, and the handlers see
    the session's token, or else the stored one. *)
Lemma JobWizard_renders (sess : jsval) (auto : bool) (st : Storage) (w : Wizard) :
  exists c : Capabilities,
    featureGate (js_oget sess "access") = Normal c
    /\ JobWizard sess auto st w
       = Normal (mkRender (js_oget sess "session_token" ||| loadSessionToken st ||| JNull)
                          c auto w).
Proof.
  unfold JobWizard. rewrite featureGate_eq. eexists. split; reflexivity.
Qed.

(** ** Init *)

Lemma run_onInit_blocked (net : Request -> Transport) (rd : Render) (w : Wizard) :
  app_access (g rd) = false -> is_admin (g rd) = false ->
  run net (onInit rd) w =
    (Returned tt, w, [EToastError "Access blocked: subscription is not active."]).
Proof. intros Ha Hb. unfold onInit. rewrite Ha, Hb. reflexivity. Qed.

Lemma run_onInit_no_token (net : Request -> Transport) (rd : Render) (w : Wizard) :
  app_access (g rd) || is_admin (g rd) = true -> truthy (token rd) = false ->
  run net (onInit rd) w =
    (Returned tt, w,
     [EToastError "Missing session token. Please sign in via magic link again."]).
Proof.
  intros Hg Ht. unfold onInit. rewrite Ht.
  destruct (app_access (g rd)), (is_admin (g rd)); try discriminate; reflexivity.
Qed.

Lemma run_onInit_pass (net : Request -> Transport) (rd : Render) (w : Wizard) :
  app_access (g rd) || is_admin (g rd) = true -> truthy (token rd) = true ->
  let r := api_result (net (init_request rd)) in
  run net (onInit rd) w =
    (Returned tt, after_init r w,
     [ENet (init_request rd);
      if r_ok r
      then EToastOk ("Job created: " ++ ToString (js_oget (r_data r) "job_id"))
      else EToastError ("uploads/init failed: " ++ ToString (r_error r))]).
Proof.
  intros Hg Ht r. unfold onInit. rewrite Ht.
  replace (negb (app_access (g rd)) && negb (is_admin (g rd))) with false
    by (destruct (app_access (g rd)), (is_admin (g rd)); try discriminate; reflexivity).
  cbn [negb]. unfold jobsInit.
  change (apiFetch ROUTES.uploadsInit "POST" _ (token rd))
    with (@Fetch Wizard _ (init_request rd) (fun t => Ret (api_result t))).
  subst r. generalize (init_request rd). intros q.
  cbn -[ToString String.append]. unfold after_init.
  destruct (r_ok (api_result (net q))); reflexivity.
Qed.

(** C6: [onInit] fails locally, without a network call, when the capability
    check fails (neither [app_access] nor [is_admin]: the access-blocked
    error) or when no session token is present (the missing-token error);
    when both preconditions hold it sends the init request, and it sends a
    request only then. *)
Theorem onInit_checks_before_network (net : Request -> Transport) (rd : Render)
    (w : Wizard) :
  (app_access (g rd) = false -> is_admin (g rd) = false ->
   run net (onInit rd) w =
     (Returned tt, w, [EToastError "Access blocked: subscription is not active."]))
  /\ (app_access (g rd) || is_admin (g rd) = true -> truthy (token rd) = false ->
      run net (onInit rd) w =
        (Returned tt, w,
         [EToastError "Missing session token. Please sign in via magic link again."]))
  /\ (app_access (g rd) || is_admin (g rd) = true -> truthy (token rd) = true ->
      requests (trace (run net (onInit rd) w)) = [ENet (init_request rd)])
  /\ (requests (trace (run net (onInit rd) w)) <> [] ->
      app_access (g rd) || is_admin (g rd) = true /\ truthy (token rd) = true).
Proof.
  split; [apply run_onInit_blocked|].
  split; [apply run_onInit_no_token|].
  split.
  - intros Hg Ht. rewrite run_onInit_pass by assumption.
    cbn. destruct (r_ok (api_result (net (init_request rd)))); reflexivity.
  - intros Hreq.
    destruct (app_access (g rd) || is_admin (g rd)) eqn:Hg.
    + destruct (truthy (token rd)) eqn:Ht; [split; reflexivity|].
      rewrite run_onInit_no_token in Hreq by assumption.
      cbn in Hreq. contradiction.
    + apply orb_false_elim in Hg as [Ha Hb].
      rewrite run_onInit_blocked in Hreq by assumption.
      cbn in Hreq. contradiction.
Qed.

(** ** Exactly-once delivery *)

Lemma downloads_app (tr1 tr2 : list Event) :
  downloads (tr1 ++ tr2) = (downloads tr1 ++ downloads tr2)%list.
Proof. unfold downloads. apply List.filter_app. Qed.

Lemma downloads_lookup_trace (net : Request -> Transport) (tok id : jsval) :
  downloads (lookup_trace net tok id) = [].
Proof. unfold lookup_trace. destruct (is_not_found _); reflexivity. Qed.

(** Once the latch is set, a poll produces no download, whatever it sees. *)
Lemma pollOnce_latched (net : Request -> Transport) (rd : Render) (id : jsval)
    (w : Wizard) :
  autoDownloadedRef w = true ->
  downloads (trace (run net (pollOnce rd id) w)) = []
  /\ autoDownloadedRef (final_state (run net (pollOnce rd id) w)) = true.
Proof.
  intros Hlatch. destruct (truthy id) eqn:Hid.
  - destruct (r_ok (lookup_result net (token rd) id)) eqn:Hok.
    + rewrite run_pollOnce_ok by assumption. unfold trace, final_state. cbn [fst snd].
      assert (Hf : poll_fires rd (r_data (lookup_result net (token rd) id)) w = false).
      { unfold poll_fires. rewrite Hlatch, andb_false_r. reflexivity. }
      unfold poll_emitted, poll_applied.
      rewrite Hf, downloads_app, downloads_lookup_trace.
      cbn. rewrite Hlatch. split; reflexivity.
    + rewrite run_pollOnce_fail by assumption. unfold trace, final_state. cbn.
      rewrite downloads_lookup_trace. split; [reflexivity | exact Hlatch].
  - unfold pollOnce. rewrite Hid. cbn. split; [reflexivity | exact Hlatch].
Qed.

(** The first poll that sees [delivered] with the latch unset fires. *)
Lemma pollOnce_fires (net : Request -> Transport) (rd : Render) (id : jsval)
    (w : Wizard) :
  autoDownloadEnabled rd = true -> truthy id = true ->
  autoDownloadedRef w = false ->
  observes_delivered net rd id = true ->
  downloads (trace (run net (pollOnce rd id) w))
    = [ENavigate (buildDownloadUrl id (token rd))]
  /\ autoDownloadedRef (final_state (run net (pollOnce rd id) w)) = true.
Proof.
  intros Hauto Hid Hlatch Hdel.
  unfold observes_delivered in Hdel. rewrite status_lookup_eq in Hdel.
  apply andb_true_iff in Hdel as [Hok Hst].
  rewrite run_pollOnce_ok by assumption. unfold trace, final_state. cbn [fst snd].
  assert (Hf : poll_fires rd (r_data (lookup_result net (token rd) id)) w = true).
  { unfold poll_fires. rewrite Hauto, Hlatch, Hst. reflexivity. }
  unfold poll_emitted, poll_applied.
  rewrite Hf, downloads_app, downloads_lookup_trace.
  cbn. rewrite orb_true_r. split; reflexivity.
Qed.

Lemma poll_cycles_latched (id : jsval) (cycles : list (Render * (Request -> Transport)))
    (w : Wizard) :
  autoDownloadedRef w = true ->
  downloads (snd (poll_cycles id cycles w)) = []
  /\ autoDownloadedRef (fst (poll_cycles id cycles w)) = true.
Proof.
  revert w. induction cycles as [|[rd net] rest IH]; intros w Hlatch; cbn.
  - split; [reflexivity | exact Hlatch].
  - destruct (pollOnce_latched net rd id w Hlatch) as [Hd Hl].
    destruct (run net (pollOnce rd id) w) as [[o w1] tr1].
    unfold trace, final_state in Hd, Hl. cbn [fst snd] in Hd, Hl.
    destruct (IH w1 Hl) as [Hd' Hl'].
    destruct (poll_cycles id rest w1) as [w2 tr2]. cbn [fst snd] in *.
    rewrite downloads_app, Hd, Hd'. split; [reflexivity | exact Hl'].
Qed.

(** One poll hands over at most one download, and sets the latch when it
    does. *)
Lemma pollOnce_step (net : Request -> Transport) (rd : Render) (id : jsval)
    (w : Wizard) :
  downloads (trace (run net (pollOnce rd id) w)) = []
  \/ (downloads (trace (run net (pollOnce rd id) w))
        = [ENavigate (buildDownloadUrl id (token rd))]
      /\ autoDownloadedRef (final_state (run net (pollOnce rd id) w)) = true).
Proof.
  destruct (truthy id) eqn:Hid.
  - destruct (r_ok (lookup_result net (token rd) id)) eqn:Hok.
    + rewrite run_pollOnce_ok by assumption. unfold trace, final_state. cbn [fst snd].
      rewrite downloads_app, downloads_lookup_trace.
      unfold poll_emitted, poll_applied.
      destruct (poll_fires rd _ w); cbn.
      * right. rewrite orb_true_r. split; reflexivity.
      * left. reflexivity.
    + rewrite run_pollOnce_fail by assumption. unfold trace. cbn [fst snd].
      rewrite downloads_lookup_trace. left. reflexivity.
  - unfold pollOnce. rewrite Hid. left. reflexivity.
Qed.

Lemma poll_cycles_at_most_once (id : jsval)
    (cycles : list (Render * (Request -> Transport))) (w : Wizard) :
  (length (downloads (snd (poll_cycles id cycles w))) <= 1)%nat.
Proof.
  revert w. induction cycles as [|[rd net] rest IH]; intros w; cbn [poll_cycles].
  - cbn. lia.
  - pose proof (pollOnce_step net rd id w) as Hstep.
    destruct (run net (pollOnce rd id) w) as [[o w1] tr1].
    unfold trace, final_state in Hstep. cbn [fst snd] in Hstep.
    pose proof (IH w1) as Hrest.
    pose proof (poll_cycles_latched id rest w1) as Hlatched.
    destruct (poll_cycles id rest w1) as [w2 tr2]. cbn [fst snd] in *.
    rewrite downloads_app, length_app.
    destruct Hstep as [Hnone|[Hone Hset]].
    + rewrite Hnone. cbn. exact Hrest.
    + rewrite Hone. destruct (Hlatched Hset) as [Hd _]. rewrite Hd. cbn. lia.
Qed.

Lemma latch_reset_by_onInit (net : Request -> Transport) (rd : Render) (w : Wizard) :
  app_access (g rd) || is_admin (g rd) = true -> truthy (token rd) = true ->
  autoDownloadedRef (final_state (run net (onInit rd) w)) = false.
Proof.
  intros Hg Ht.
  rewrite run_onInit_pass by assumption. unfold final_state, after_init. cbn.
  destruct (r_ok _); reflexivity.
Qed.

(** A poll that does not see [delivered] hands over no download. *)
Lemma pollOnce_quiet_unless_delivered (net : Request -> Transport) (rd : Render)
    (id : jsval) (w : Wizard) :
  observes_delivered net rd id = false ->
  downloads (trace (run net (pollOnce rd id) w)) = []
  /\ autoDownloadedRef (final_state (run net (pollOnce rd id) w)) = autoDownloadedRef w.
Proof.
  intros Hdel. unfold observes_delivered in Hdel. rewrite status_lookup_eq in Hdel.
  destruct (truthy id) eqn:Hid.
  - destruct (r_ok (lookup_result net (token rd) id)) eqn:Hok.
    + cbn [andb] in Hdel.
      rewrite run_pollOnce_ok by assumption. unfold trace, final_state. cbn [fst snd].
      assert (Hf : poll_fires rd (r_data (lookup_result net (token rd) id)) w = false).
      { unfold poll_fires. rewrite Hdel, andb_false_r. reflexivity. }
      unfold poll_emitted, poll_applied.
      rewrite Hf, downloads_app, downloads_lookup_trace.
      cbn. rewrite orb_false_r. split; reflexivity.
    + rewrite run_pollOnce_fail by assumption. unfold trace, final_state. cbn [fst snd].
      rewrite downloads_lookup_trace. split; reflexivity.
  - unfold pollOnce. rewrite Hid. split; reflexivity.
Qed.

(** Polls that no init interrupts.  For an active job id, over any number
    [N >= 1] of poll cycles that all observe [delivered] while auto-download
    is enabled, starting from an unset latch, exactly one download action
    (the download address of that job) is produced; once the latch is set a
    poll produces none; a poll that does not observe [delivered] produces
    none and leaves the latch as it is; whatever the cycles observe, at most
    one download action is produced; and the latch is false when the
    component mounts and after every [onInit] that passes its two checks,
    whether its request succeeds or not.

    A cycle touches the cells only in the synchronous stretch that follows
    its last response, so cycles whose requests overlap act on the cells like
    the same cycles taken one after the other in the order of arrival. *)
Lemma poll_cycles_fire_once :
  (forall (id : jsval) (rd : Render) (net : Request -> Transport)
          (rest : list (Render * (Request -> Transport))) (w : Wizard),
      truthy id = true ->
      autoDownloadedRef w = false ->
      Forall (fun c => autoDownloadEnabled (fst c) = true
                       /\ observes_delivered (snd c) (fst c) id = true)
             ((rd, net) :: rest) ->
      downloads (snd (poll_cycles id ((rd, net) :: rest) w))
        = [ENavigate (buildDownloadUrl id (token rd))]
      /\ autoDownloadedRef (fst (poll_cycles id ((rd, net) :: rest) w)) = true)
  /\ (forall (rd : Render) (id : jsval) (net : Request -> Transport) (w : Wizard),
        autoDownloadedRef w = true ->
        downloads (trace (run net (pollOnce rd id) w)) = []
        /\ autoDownloadedRef (final_state (run net (pollOnce rd id) w)) = true)
  /\ (forall (rd : Render) (id : jsval) (net : Request -> Transport) (w : Wizard),
        observes_delivered net rd id = false ->
        downloads (trace (run net (pollOnce rd id) w)) = []
        /\ autoDownloadedRef (final_state (run net (pollOnce rd id) w))
           = autoDownloadedRef w)
  /\ (forall (id : jsval) (cycles : list (Render * (Request -> Transport))) (w : Wizard),
        (length (downloads (snd (poll_cycles id cycles w))) <= 1)%nat)
  /\ autoDownloadedRef Wizard_mount = false
  /\ (forall (rd : Render) (net : Request -> Transport) (w : Wizard),
        app_access (g rd) || is_admin (g rd) = true -> truthy (token rd) = true ->
        autoDownloadedRef (final_state (run net (onInit rd) w)) = false).
Proof.
  split; [|split; [|split; [|split; [|split]]]].
  - intros id rd net rest w Hid Hlatch Hall.
    apply Forall_cons_iff in Hall as [[Hauto Hdel] _]. cbn [fst snd] in Hauto, Hdel.
    cbn [poll_cycles].
    destruct (pollOnce_fires net rd id w Hauto Hid Hlatch Hdel) as [Hd Hl].
    destruct (run net (pollOnce rd id) w) as [[o w1] tr1].
    unfold trace, final_state in Hd, Hl. cbn [fst snd] in Hd, Hl.
    destruct (poll_cycles_latched id rest w1 Hl) as [Hd' Hl'].
    destruct (poll_cycles id rest w1) as [w2 tr2]. cbn [fst snd] in *.
    rewrite downloads_app, Hd, Hd'. split; [reflexivity | exact Hl'].
  - intros rd id net w Hlatch. apply pollOnce_latched. exact Hlatch.
  - intros rd id net w Hdel. apply pollOnce_quiet_unless_delivered. exact Hdel.
  - apply poll_cycles_at_most_once.
  - reflexivity.
  - intros rd net w Hg Ht. apply latch_reset_by_onInit; assumption.
Qed.

(** An init whose request fails leaves every cell of the job as it was,
    with the latch cleared. *)
Lemma run_onInit_failed (net : Request -> Transport) (rd : Render) (w : Wizard) :
  app_access (g rd) || is_admin (g rd) = true -> truthy (token rd) = true ->
  r_ok (api_result (net (init_request rd))) = false ->
  run net (onInit rd) w =
    (Returned tt,
     mkWizard (jobType w) (inputs w) (jobId w) (jobMeta w) (uploads w)
              (missingRequired w) (status w) false false,
     [ENet (init_request rd);
      EToastError ("uploads/init failed: "
                   ++ ToString (r_error (api_result (net (init_request rd)))))]).
Proof.
  intros Hg Ht Hfail. rewrite run_onInit_pass by assumption.
  unfold after_init. rewrite Hfail. reflexivity.
Qed.

(** C1: the latch does not hold across an init that fails.  [onInit] clears
    the latch before it sends its request, and when the request fails it
    returns without replacing the job.  So, with auto-download enabled: a
    poll for the job [id] that observes [delivered] starts the download and
    sets the latch; an [onInit] that passes its two checks and whose request
    fails leaves [id] the current job and the latch cleared; and the next
    poll for [id] that observes [delivered] starts the download of the same
    job again.  Over the three steps two download actions for [id] are
    handed to the browser. *)
Theorem failed_init_rearms_delivery_trigger
    (rd1 rdI rd2 : Render) (net1 netI net2 : Request -> Transport) (w : Wizard) :
  truthy (jobId w) = true ->
  autoDownloadedRef w = false ->
  autoDownloadEnabled rd1 = true ->
  observes_delivered net1 rd1 (jobId w) = true ->
  app_access (g rdI) || is_admin (g rdI) = true -> truthy (token rdI) = true ->
  r_ok (api_result (netI (init_request rdI))) = false ->
  autoDownloadEnabled rd2 = true ->
  observes_delivered net2 rd2 (jobId w) = true ->
  let r1 := run net1 (pollOnce rd1 (jobId w)) w in
  let r2 := run netI (onInit rdI) (final_state r1) in
  let r3 := run net2 (pollOnce rd2 (jobId w)) (final_state r2) in
  (downloads (trace r1) = [ENavigate (buildDownloadUrl (jobId w) (token rd1))]
   /\ autoDownloadedRef (final_state r1) = true)
  /\ (jobId (final_state r2) = jobId w
      /\ status (final_state r2) = status (final_state r1)
      /\ autoDownloadedRef (final_state r2) = false
      /\ downloads (trace r2) = [])
  /\ (jobId (final_state r3) = jobId w
      /\ downloads (trace r3) = [ENavigate (buildDownloadUrl (jobId w) (token rd2))])
  /\ downloads (trace r1 ++ trace r2 ++ trace r3)
     = [ENavigate (buildDownloadUrl (jobId w) (token rd1));
        ENavigate (buildDownloadUrl (jobId w) (token rd2))].
Proof.
  intros Hid Hlatch Hauto1 Hdel1 Hg Ht Hfail Hauto2 Hdel2 r1 r2 r3.
  destruct (pollOnce_fires net1 rd1 (jobId w) w Hauto1 Hid Hlatch Hdel1) as [Hd1 Hl1].
  fold r1 in Hd1, Hl1.
  assert (Hj1 : jobId (final_state r1) = jobId w).
  { subst r1. unfold observes_delivered in Hdel1. rewrite status_lookup_eq in Hdel1.
    apply andb_true_iff in Hdel1 as [Hok _].
    rewrite run_pollOnce_ok by assumption. reflexivity. }
  assert (Hr2 : r2 = (Returned tt,
                      mkWizard (jobType (final_state r1)) (inputs (final_state r1))
                               (jobId (final_state r1)) (jobMeta (final_state r1))
                               (uploads (final_state r1))
                               (missingRequired (final_state r1))
                               (status (final_state r1)) false false,
                      [ENet (init_request rdI);
                       EToastError ("uploads/init failed: "
                         ++ ToString (r_error (api_result (netI (init_request rdI)))))])).
  { subst r2. apply run_onInit_failed; assumption. }
  assert (Hj2 : jobId (final_state r2) = jobId w).
  { rewrite Hr2. unfold final_state. cbn [fst snd jobId]. exact Hj1. }
  assert (Hl2 : autoDownloadedRef (final_state r2) = false).
  { rewrite Hr2. reflexivity. }
  assert (Hd2 : downloads (trace r2) = []).
  { rewrite Hr2. reflexivity. }
  destruct (pollOnce_fires net2 rd2 (jobId w) (final_state r2) Hauto2 Hid Hl2 Hdel2)
    as [Hd3 _].
  fold r3 in Hd3.
  assert (Hj3 : jobId (final_state r3) = jobId w).
  { subst r3. unfold observes_delivered in Hdel2. rewrite status_lookup_eq in Hdel2.
    apply andb_true_iff in Hdel2 as [Hok _].
    rewrite run_pollOnce_ok by assumption.
    unfold final_state at 1. cbn [fst snd poll_applied jobId]. exact Hj2. }
  split; [split; assumption|].
  split.
  - split; [exact Hj2|]. split; [rewrite Hr2; reflexivity|]. split; assumption.
  - split; [split; assumption|].
    rewrite !downloads_app, Hd1, Hd2, Hd3. reflexivity.
Qed.

(** ** Reconciliation with the server *)

Lemma run_refreshUploads (net : Request -> Transport) (rd : Render) (id : jsval)
    (w : Wizard) :
  truthy id = true ->
  let r := api_result (net (list_request (token rd) id)) in
  run net (refreshUploads rd id) w =
    if r_ok r
    then (Returned tt,
          mkWizard (jobType w) (inputs w) (jobId w) (jobMeta w)
                   (js_oget (r_data r) "files" ||| JArr [])
                   (js_oget (r_data r) "missing_required_sets" ||| JArr [])
                   (js_oget (r_data r) "status" ||| status (snapshot rd))
                   (busy w) (autoDownloadedRef w),
          [ENet (list_request (token rd) id)])
    else (Returned tt, w,
          [ENet (list_request (token rd) id);
           EToastError ("uploads/list failed: " ++ ToString (r_error r))]).
Proof.
  intros Hid r. unfold refreshUploads. rewrite Hid. cbn [negb].
  rewrite jobsListUploads_fetch.
  subst r. generalize (list_request (token rd) id). intros q.
  cbn -[ToString String.append].
  destruct (r_ok (api_result (net q))); reflexivity.
Qed.

(** C8 (amended): a successful [refreshUploads] overwrites the uploaded
    files and the missing required sets from the response (an absent list
    becomes the empty list), and overwrites the status only when the response
    carries a non-empty one; otherwise the status is the one the calling
    render had.  A successful poll overwrites the status only when the
    response carries a non-empty one (at the top level or under [job]), and
    overwrites the files and the missing sets only when the response carries
    [files]; what the response does not carry is left as it was. *)
Theorem server_response_overwrites_what_it_carries :
  (forall (net : Request -> Transport) (rd : Render) (id : jsval) (w : Wizard),
      truthy id = true ->
      r_ok (api_result (net (list_request (token rd) id))) = true ->
      let d := r_data (api_result (net (list_request (token rd) id))) in
      let W := final_state (run net (refreshUploads rd id) w) in
      uploads W = js_oget d "files" ||| JArr []
      /\ missingRequired W = js_oget d "missing_required_sets" ||| JArr []
      /\ status W = (if truthy (js_oget d "status") then js_oget d "status"
                     else status (snapshot rd)))
  /\ (forall (net : Request -> Transport) (rd : Render) (id : jsval) (w : Wizard),
        truthy id = true ->
        r_ok (lookup_result net (token rd) id) = true ->
        let d := r_data (lookup_result net (token rd) id) in
        let W := final_state (run net (pollOnce rd id) w) in
        status W = (if truthy (polled_status d) then polled_status d else status w)
        /\ uploads W = (if truthy (js_oget d "files") then js_oget d "files"
                        else uploads w)
        /\ missingRequired W = (if truthy (js_oget d "files")
                                then js_oget d "missing_required_sets" ||| JArr []
                                else missingRequired w)).
Proof.
  split.
  - intros net rd id w Hid Hok d W. subst W.
    rewrite run_refreshUploads by exact Hid. rewrite Hok.
    unfold final_state. cbn. fold d. repeat split; reflexivity.
  - intros net rd id w Hid Hok d W. subst W.
    rewrite run_pollOnce_ok by assumption.
    unfold final_state. cbn. fold d. repeat split; reflexivity.
Qed.

(** C2 (amended): [pollOnce] compares no job ids.  When the response to a
    status request arrives after a second init has replaced the job, it is
    dropped only if it is a failure; a successful one is applied to the cells
    of the new job like any other: the status is overwritten when the
    response carries a non-empty status, the uploaded files and the missing
    required sets when it carries [files]. *)
Theorem late_poll_response_applied_without_guard (rd : Render) (id : jsval) :
  truthy id = true ->
  exists k : Transport -> async Wizard unit,
    (forall w, advance (pollOnce rd id) w
               = InFlight (status_request (token rd) id) k w [])
    /\ forall (late : Transport) (net : Request -> Transport) (w : Wizard),
         (r_ok (api_result late) = false -> is_not_found late = false ->
          run net (k late) w = (Returned tt, w, []))
         /\ (r_ok (api_result late) = true ->
             let d := r_data (api_result late) in
             let W := final_state (run net (k late) w) in
             jobId W = jobId w
             /\ status W = (if truthy (polled_status d) then polled_status d
                            else status w)
             /\ uploads W = (if truthy (js_oget d "files") then js_oget d "files"
                             else uploads w)
             /\ missingRequired W = (if truthy (js_oget d "files")
                                     then js_oget d "missing_required_sets" ||| JArr []
                                     else missingRequired w)).
Proof.
  intros Hid. destruct (pollOnce_suspends rd id Hid) as (k & Hk & Hrun).
  exists k. split; [exact Hk|].
  intros late net w. split.
  - intros Hfail Hnf. rewrite Hrun, Hnf, Hfail. reflexivity.
  - intros Hok d W. subst W. rewrite Hrun.
    assert (Hnf : is_not_found late = false).
    { destruct late as [st payload| |message]; try reflexivity.
      cbn in Hok |- *. unfold res_ok in Hok.
      destruct (st =? 404)%Z eqn:E; [|reflexivity].
      apply Z.eqb_eq in E. subst st. discriminate. }
    rewrite Hnf, Hok. unfold final_state. cbn. fold d.
    repeat split; reflexivity.
Qed.

(** ** Submit *)

Lemma refreshUploads_returns (net : Request -> Transport) (rd : Render) (id : jsval)
    (w : Wizard) :
  result (run net (refreshUploads rd id) w) = Returned tt.
Proof.
  destruct (truthy id) eqn:Hid.
  - rewrite run_refreshUploads by exact Hid. cbn zeta.
    destruct (r_ok _); reflexivity.
  - unfold refreshUploads. rewrite Hid. reflexivity.
Qed.

(** The check of [onSubmit] tests the [missingRequired] of the render that
    created the handler, whatever the refresh just stored in the cell: when
    that value is non-empty, the handler stops after the refresh. *)
Lemma run_onSubmit_stops (net : Request -> Transport) (rd : Render) (w : Wizard) :
  truthy (jobId (snapshot rd)) = true ->
  truthy (js_length (missingRequired (snapshot rd) ||| JArr [])) = true ->
  run net (onSubmit rd) w =
    match js_join (missingRequired (snapshot rd)) ", " with
    | Normal sets =>
        (Returned tt,
         final_state (run net (refreshUploads rd (jobId (snapshot rd))) w),
         (trace (run net (refreshUploads rd (jobId (snapshot rd))) w)
          ++ [EToastError ("Missing required file sets: " ++ sets)])%list)
    | Abrupt e =>
        (Thrown e,
         final_state (run net (refreshUploads rd (jobId (snapshot rd))) w),
         trace (run net (refreshUploads rd (jobId (snapshot rd))) w))
    end.
Proof.
  intros Hid Hcheck. unfold onSubmit. rewrite Hid, Hcheck. cbn [negb].
  rewrite run_bind.
  pose proof (refreshUploads_returns net rd (jobId (snapshot rd)) w) as Hret.
  destruct (run net (refreshUploads rd (jobId (snapshot rd))) w) as [[o w1] tr1].
  unfold result, final_state, trace in *. cbn [fst snd] in *. subst o.
  destruct (js_join (missingRequired (snapshot rd)) ", ") as [sets|e]; cbn.
  - reflexivity.
  - rewrite app_nil_r. reflexivity.
Qed.

(** When that value is empty, the handler sends the submit request after the
    refresh; on success it sets the status to [pending_review] and polls. *)
Lemma run_onSubmit_proceeds (net : Request -> Transport) (rd : Render) (w : Wizard) :
  truthy (jobId (snapshot rd)) = true ->
  truthy (js_length (missingRequired (snapshot rd) ||| JArr [])) = false ->
  let id := jobId (snapshot rd) in
  let w1 := final_state (run net (refreshUploads rd id) w) in
  let tr1 := trace (run net (refreshUploads rd id) w) in
  let r := api_result (net (submit_request (token rd) id)) in
  run net (onSubmit rd) w =
    if r_ok r
    then (result (run net (pollOnce rd id)
                    (setStatus (JStr "pending_review") (setBusy false (setBusy true w1)))),
          final_state (run net (pollOnce rd id)
                    (setStatus (JStr "pending_review") (setBusy false (setBusy true w1)))),
          (tr1 ++ ENet (submit_request (token rd) id)
               :: EToastOk "Submitted for admin approval."
               :: trace (run net (pollOnce rd id)
                    (setStatus (JStr "pending_review")
                       (setBusy false (setBusy true w1)))))%list)
    else (Returned tt, setBusy false (setBusy true w1),
          (tr1 ++ [ENet (submit_request (token rd) id);
                   EToastError ("jobs/submit failed: " ++ ToString (r_error r))])%list).
Proof.
  intros Hid Hcheck id w1 tr1 r. unfold onSubmit. rewrite Hid, Hcheck. cbn [negb].
  rewrite run_bind.
  pose proof (refreshUploads_returns net rd (jobId (snapshot rd)) w) as Hret.
  subst w1 tr1. fold id in Hret |- *.
  destruct (run net (refreshUploads rd id) w) as [[o w1] tr1].
  unfold result, final_state, trace in *. cbn [fst snd] in *. subst o.
  rewrite jobsSubmit_fetch.
  subst r. generalize (submit_request (token rd) id). intros q.
  cbn -[ToString String.append pollOnce].
  destruct (r_ok (api_result (net q))).
  - cbn -[ToString String.append pollOnce].
    destruct (run net (pollOnce rd id) _) as [[o2 w2] tr2]. reflexivity.
  - reflexivity.
Qed.

(** ** Verify *)

Lemma searchParams_delete_get (name : string) (u : Url) :
  searchParams_get name (searchParams_delete name u) = JNull.
Proof.
  unfold searchParams_get, searchParams_delete. cbn [searchParams].
  induction (searchParams u) as [|[k v] rest IH]; cbn; [reflexivity|].
  destruct (String.eqb k name) eqn:E; cbn; [exact IH|].
  rewrite E. exact IH.
Qed.

Lemma run_onVerified_no_token (net : Request -> Transport) (now : string)
    (payload : jsval) (a : App) :
  truthy (js_oget payload "session_token") = false ->
  run net (onVerified now payload) a =
    (Returned tt, setStep "login" a,
     [EToastError
        "Verify response missing session_token. Check backend /auth/verify output."]).
Proof.
  intros Hno. unfold onVerified.
  rewrite (js_or_falsy (js_oget payload "session_token")) by exact Hno.
  reflexivity.
Qed.

Lemma run_onVerified_token (net : Request -> Transport) (now : string)
    (payload : jsval) (a : App) :
  truthy (js_oget payload "session_token") = true ->
  let sessionToken := js_oget payload "session_token" in
  let sess := JObj [("email", js_oget payload "email");
                    ("access", js_oget payload "access");
                    ("app_url", js_oget payload "app_url");
                    ("verified_at", JStr now);
                    ("session_token", sessionToken)] in
  run net (onVerified now payload) a =
    (Returned tt,
     mkApp "app" sess (loading a)
           (saveSession sess (saveSessionToken sessionToken (storage a)))
           (searchParams_delete "token" (location a)),
     [EToastOk "Verified. Welcome!"]).
Proof.
  intros Htok sessionToken sess. unfold onVerified.
  rewrite (js_or_truthy (js_oget payload "session_token")) by exact Htok.
  rewrite Htok. cbn [negb].
  rewrite !(js_get_of_oget payload "session_token") by exact Htok.
  reflexivity.
Qed.

Lemma run_VerifyScreen (net : Request -> Transport) (now : string) (magic : jsval)
    (a : App) :
  truthy magic = true ->
  let r := api_result (net (verify_request magic)) in
  run net (VerifyScreen now magic) a =
    if r_ok r
    then (result (run net (onVerified now (r_data r)) (setLoading false a)),
          final_state (run net (onVerified now (r_data r)) (setLoading false a)),
          ENet (verify_request magic)
            :: trace (run net (onVerified now (r_data r)) (setLoading false a)))
    else (Returned tt, setStep "login" (setLoading false a),
          [ENet (verify_request magic);
           EToastError ("Verify failed: " ++ ToString (r_error r))]).
Proof.
  intros Hmagic r. unfold VerifyScreen. rewrite Hmagic. cbn [negb].
  rewrite verifyMagicToken_fetch.
  subst r. generalize (verify_request magic). intros q.
  cbn -[ToString String.append onVerified].
  destruct (r_ok (api_result (net q))).
  - cbn -[ToString String.append onVerified].
    destruct (run net (onVerified now _) _) as [[o a2] tr2]. reflexivity.
  - reflexivity.
Qed.

(** C9: when the verify exchange fails, because the request fails or because
    the payload lacks [session_token], nothing is written to the persistent
    store: [localStorage] is exactly what it was, so the stored session and
    the stored session token are what they were; and the user is routed to
    the login step with an error shown. *)
Theorem failed_verify_writes_nothing (net : Request -> Transport) (now : string)
    (magic : jsval) (a : App) :
  truthy magic = true ->
  r_ok (api_result (net (verify_request magic))) = false
  \/ truthy (js_oget (r_data (api_result (net (verify_request magic)))) "session_token")
     = false ->
  let A := final_state (run net (VerifyScreen now magic) a) in
  storage A = storage a
  /\ loadSessionToken (storage A) = loadSessionToken (storage a)
  /\ step A = "login"
  /\ session A = session a
  /\ location A = location a
  /\ exists msg, trace (run net (VerifyScreen now magic) a)
                 = [ENet (verify_request magic); EToastError msg].
Proof.
  intros Hmagic Hfail A. subst A.
  rewrite run_VerifyScreen by exact Hmagic. cbn zeta.
  destruct (r_ok (api_result (net (verify_request magic)))) eqn:Hok.
  - destruct Hfail as [Hfail|Hno]; [discriminate|].
    rewrite run_onVerified_no_token by exact Hno.
    unfold final_state, trace. cbn.
    repeat split; try reflexivity. eexists. reflexivity.
  - unfold final_state, trace. cbn.
    repeat split; try reflexivity. eexists. reflexivity.
Qed.

Lemma storage_after_verify (sess : jsval) (tok : string) (st : Storage) :
  tok <> "" -> denied st = false -> quota_full st = false ->
  saveSession sess (saveSessionToken (JStr tok) st) =
    mkStorage (<[LS_KEYS.session := JSON_stringify sess]>
                 (<[LS_KEYS.sessionToken := tok]> (items st)))
              false false.
Proof.
  intros Htok Hd Hq. unfold saveSession, saveSessionToken, setItem.
  cbn [truthy]. destruct (String.eqb_spec tok ""); [contradiction|].
  cbn [negb]. rewrite Hd, Hq. reflexivity.
Qed.


(** * Further properties of the program *)

(** ** Storage round trips *)

Lemma setItem_writable (st : Storage) (k v : string) :
  denied st = false -> quota_full st = false ->
  setItem st k v = Normal (mkStorage (<[k := v]> (items st)) false false).
Proof. intros Hd Hq. unfold setItem. rewrite Hd, Hq. reflexivity. Qed.

Lemma setItem_refused (st : Storage) (k v : string) :
  denied st = true \/ quota_full st = true ->
  exists e, setItem st k v = Abrupt e.
Proof.
  intros [H|H]; unfold setItem; rewrite H.
  - eexists. reflexivity.
  - destruct (denied st); eexists; reflexivity.
Qed.

(** X1: the auto-download preference survives a reload.  On a store that
    accepts writes, what [saveAutoDownload] stores is what [loadAutoDownload]
    (and so the next mount of the dashboard) reads back, as a boolean, and no
    other key changes; on a store that refuses the write nothing changes. *)
Theorem autoDownload_roundtrip (v : jsval) (st : Storage) :
  (denied st = false -> quota_full st = false ->
   loadAutoDownload (saveAutoDownload v st) = truthy v
   /\ Dashboard_mount (Dashboard_effect (truthy v) st) = truthy v
   /\ forall k : string, k <> LS_KEYS.autoDownload ->
        items (saveAutoDownload v st) !! k = items st !! k)
  /\ (denied st = true \/ quota_full st = true -> saveAutoDownload v st = st).
Proof.
  split.
  - intros Hd Hq.
    assert (Hload : forall b : bool,
      loadAutoDownload (saveAutoDownload (JBool b) st) = b).
    { intros b. unfold saveAutoDownload. rewrite setItem_writable by assumption.
      unfold loadAutoDownload, getItem. cbn [catch denied items].
      rewrite lookup_insert_eq. destruct b; reflexivity. }
    split; [|split].
    + unfold saveAutoDownload in *. cbn [truthy] in Hload. apply Hload.
    + unfold Dashboard_mount, Dashboard_effect. apply Hload.
    + intros k Hk. unfold saveAutoDownload. rewrite setItem_writable by assumption.
      cbn [catch items]. apply lookup_insert_ne. congruence.
  - intros Href. unfold saveAutoDownload.
    destruct (setItem_refused st LS_KEYS.autoDownload
                (ToString (JBool (truthy v))) Href) as [e ->].
    reflexivity.
Qed.

(** X2: the session token round trip.  A non-empty token saved on a store
    that accepts writes is the token loaded back; saving a falsy token is a
    no-op, so it never erases a stored one; after [clearSessionToken] on an
    accessible store no token is loaded. *)
Theorem sessionToken_roundtrip (st : Storage) :
  (forall s : string, s <> "" -> denied st = false -> quota_full st = false ->
     loadSessionToken (saveSessionToken (JStr s) st) = JStr s)
  /\ (forall t : jsval, truthy t = false -> saveSessionToken t st = st)
  /\ (denied st = false -> loadSessionToken (clearSessionToken st) = JNull)
  /\ (denied st = true -> loadSessionToken st = JNull).
Proof.
  split; [|split; [|split]].
  - intros s Hs Hd Hq. unfold saveSessionToken. cbn [truthy].
    destruct (String.eqb_spec s ""); [contradiction|]. cbn [negb].
    rewrite setItem_writable by assumption.
    unfold loadSessionToken, getItem. cbn [catch denied items ToString].
    rewrite lookup_insert_eq. cbn. unfold js_or. cbn.
    destruct (String.eqb_spec s ""); [contradiction | reflexivity].
  - intros t Ht. unfold saveSessionToken. rewrite Ht. reflexivity.
  - intros Hd. unfold clearSessionToken, removeItem. rewrite Hd.
    unfold loadSessionToken, getItem. cbn [catch denied items].
    rewrite lookup_delete_eq. reflexivity.
  - intros Hd. unfold loadSessionToken, getItem. rewrite Hd. reflexivity.
Qed.

(** ** Logout *)

Lemma clear_accessible (st : Storage) :
  denied st = false ->
  clearSessionToken (clearSession st) =
    mkStorage (delete LS_KEYS.sessionToken (delete LS_KEYS.session (items st)))
              false (quota_full st).
Proof.
  intros Hd. unfold clearSessionToken, clearSession, removeItem.
  rewrite Hd. reflexivity.
Qed.

Lemma run_logout (net : Request -> Transport) (a : App) :
  run net logout a =
    (Returned tt,
     mkApp "login" JNull (loading a) (clearSessionToken (clearSession (storage a)))
           (location a),
     []).
Proof. reflexivity. Qed.

(** X3: logout sends nothing, leaves the address alone, empties the session
    cell and goes to the login step.  On an accessible store it removes the
    session snapshot and the session token and nothing else (the
    auto-download preference stays); on a store denied to the page the store
    is left as it is. *)
Theorem logout_clears_persisted_session (net : Request -> Transport) (a : App) :
  let A := final_state (run net logout a) in
  trace (run net logout a) = []
  /\ step A = "login" /\ session A = JNull /\ location A = location a
  /\ (denied (storage a) = false ->
      items (storage A) !! LS_KEYS.session = None
      /\ items (storage A) !! LS_KEYS.sessionToken = None
      /\ loadSessionToken (storage A) = JNull
      /\ forall k : string, k <> LS_KEYS.session -> k <> LS_KEYS.sessionToken ->
           items (storage A) !! k = items (storage a) !! k)
  /\ (denied (storage a) = true -> storage A = storage a).
Proof.
  intros A. subst A. rewrite run_logout. unfold trace, final_state.
  cbn [fst snd step session location storage].
  repeat (split; [reflexivity|]).
  split.
  - intros Hd. rewrite (clear_accessible _ Hd). cbn [items].
    split; [rewrite lookup_delete_ne by discriminate; apply lookup_delete_eq|].
    split; [apply lookup_delete_eq|].
    split.
    + unfold loadSessionToken, getItem. cbn [catch denied items].
      rewrite lookup_delete_eq. reflexivity.
    + intros k Hk1 Hk2. rewrite !lookup_delete_ne by congruence. reflexivity.
  - intros Hd. unfold clearSessionToken, clearSession, removeItem.
    rewrite Hd. cbn [catch]. rewrite Hd. reflexivity.
Qed.

(** ** What apiFetch returns *)

(** X14: [apiFetch] reports success exactly for the statuses 200 to 299, and
    then hands over the status and the payload untouched.  A response with
    any other status comes back failed with that status and an error that is
    never empty: the payload's [error] when it has one, else the payload
    itself when it is not empty, else the text [HTTP <status>]. *)
Theorem api_result_of_response (st : Z) (payload : jsval) :
  r_ok (api_result (Responded st payload)) = res_ok st
  /\ r_status (api_result (Responded st payload)) = st
  /\ (res_ok st = true -> r_data (api_result (Responded st payload)) = payload)
  /\ (res_ok st = false ->
      truthy (r_error (api_result (Responded st payload))) = true
      /\ (truthy (js_oget payload "error") = true ->
          r_error (api_result (Responded st payload)) = js_oget payload "error")
      /\ (truthy (js_oget payload "error") = false -> truthy payload = true ->
          r_error (api_result (Responded st payload)) = payload)
      /\ (truthy payload = false ->
          r_error (api_result (Responded st payload)) = JStr ("HTTP " ++ pretty st))).
Proof.
  unfold api_result. destruct (res_ok st) eqn:Hok; cbn [r_ok r_status r_data r_error].
  - split; [reflexivity|]. split; [reflexivity|]. split; [reflexivity|].
    intros H. discriminate H.
  - split; [reflexivity|]. split; [reflexivity|].
    split; [intros H; discriminate H|]. intros _.
    assert (Hobj : truthy payload = false -> truthy (js_oget payload "error") = false).
    { destruct payload; cbn; intros H; try reflexivity; discriminate H. }
    unfold js_or.
    destruct (truthy (js_oget payload "error")) eqn:He;
      destruct (truthy payload) eqn:Hp; cbv beta iota;
      rewrite ?He, ?Hp; cbv beta iota; rewrite ?He, ?Hp.
    + repeat split; intros; try assumption; try reflexivity; congruence.
    + specialize (Hobj eq_refl). discriminate Hobj.
    + repeat split; intros; try assumption; try reflexivity; congruence.
    + repeat split; intros; try reflexivity; congruence.
Qed.

(** ** Manual download *)


(** ** Upload *)

Lemma jobsUpload_fetch {S} (tok id fileSet file : jsval) :
  @jobsUpload S tok id fileSet file
  = Fetch (upload_request tok id fileSet file) (fun t => Ret (api_result t)).
Proof. reflexivity. Qed.

Lemma run_onUpload (net : Request -> Transport) (rd : Render) (fileSet file : jsval)
    (w : Wizard) :
  truthy (jobId (snapshot rd)) = true -> truthy file = true ->
  let id := jobId (snapshot rd) in
  let q := upload_request (token rd) id fileSet file in
  let w1 := setBusy false (setBusy true w) in
  run net (onUpload rd fileSet file) w =
    if r_ok (api_result (net q))
    then (Returned tt,
          final_state (run net (refreshUploads rd id) w1),
          (ENet q :: EToastOk ("Uploaded: " ++ ToString (js_oget file "name"))
             :: trace (run net (refreshUploads rd id) w1))%list)
    else (Returned tt, w1,
          [ENet q; EToastError ("upload failed: " ++ ToString (r_error (api_result (net q))))]).
Proof.
  intros Hid Hfile id q w1. unfold onUpload. rewrite Hid, Hfile. cbn [negb].
  rewrite jobsUpload_fetch. fold id. fold q.
  rewrite (js_get_truthy file "name" Hfile).
  pose proof (refreshUploads_returns net rd id w1) as Hret.
  subst w1. clearbody q.
  cbn -[ToString String.append refreshUploads].
  destruct (r_ok (api_result (net q))).
  - cbn -[ToString String.append refreshUploads].
    destruct (run net (refreshUploads rd id) _) as [[o w2] tr2].
    unfold result in Hret. cbn [fst snd] in Hret. subst o.
    unfold final_state, trace. reflexivity.
  - reflexivity.
Qed.

(** X8: [onUpload] sends nothing without a job (it shows an error) and does
    nothing at all without a file.  With both it sends the upload; when the
    upload fails it shows the error and does not refresh; when it succeeds it
    re-fetches the listing of the render's job, so the requests are the
    upload followed by the listing. *)
Theorem onUpload_then_refresh (net : Request -> Transport) (rd : Render)
    (fileSet file : jsval) (w : Wizard) :
  (truthy (jobId (snapshot rd)) = false ->
   run net (onUpload rd fileSet file) w
   = (Returned tt, w, [EToastError "Create a job first (Init)."]))
  /\ (truthy (jobId (snapshot rd)) = true -> truthy file = false ->
      run net (onUpload rd fileSet file) w = (Returned tt, w, []))
  /\ (truthy (jobId (snapshot rd)) = true -> truthy file = true ->
      let q := upload_request (token rd) (jobId (snapshot rd)) fileSet file in
      (r_ok (api_result (net q)) = false ->
       requests (trace (run net (onUpload rd fileSet file) w)) = [ENet q]
       /\ uploads (final_state (run net (onUpload rd fileSet file) w)) = uploads w
       /\ missingRequired (final_state (run net (onUpload rd fileSet file) w))
          = missingRequired w)
      /\ (r_ok (api_result (net q)) = true ->
          requests (trace (run net (onUpload rd fileSet file) w))
          = [ENet q; ENet (list_request (token rd) (jobId (snapshot rd)))])).
Proof.
  split; [|split].
  - intros Hid. unfold onUpload. rewrite Hid. reflexivity.
  - intros Hid Hfile. unfold onUpload. rewrite Hid, Hfile. reflexivity.
  - intros Hid Hfile q. subst q. split.
    + intros Hfail. rewrite run_onUpload by assumption. cbn zeta. rewrite Hfail.
      unfold trace, final_state. cbn. repeat split; reflexivity.
    + intros Hok. rewrite run_onUpload by assumption. cbn zeta. rewrite Hok.
      unfold trace at 1. cbn [fst snd].
      rewrite run_refreshUploads by exact Hid. cbn zeta.
      destruct (r_ok (api_result (net (list_request _ _)))); reflexivity.
Qed.

(** ** What the handlers leave alone *)

Lemma refreshUploads_frame (net : Request -> Transport) (rd : Render) (id : jsval)
    (w : Wizard) :
  let W := final_state (run net (refreshUploads rd id) w) in
  jobType W = jobType w /\ inputs W = inputs w /\ jobId W = jobId w
  /\ jobMeta W = jobMeta w /\ busy W = busy w
  /\ autoDownloadedRef W = autoDownloadedRef w.
Proof.
  destruct (truthy id) eqn:Hid.
  - rewrite run_refreshUploads by exact Hid. cbn zeta.
    destruct (r_ok _); unfold final_state; cbn; repeat split; reflexivity.
  - unfold refreshUploads. rewrite Hid. unfold final_state. cbn.
    repeat split; reflexivity.
Qed.

Lemma pollOnce_frame (net : Request -> Transport) (rd : Render) (id : jsval)
    (w : Wizard) :
  let W := final_state (run net (pollOnce rd id) w) in
  jobType W = jobType w /\ inputs W = inputs w /\ jobId W = jobId w
  /\ jobMeta W = jobMeta w /\ busy W = busy w.
Proof.
  destruct (truthy id) eqn:Hid.
  - destruct (r_ok (lookup_result net (token rd) id)) eqn:Hok.
    + rewrite run_pollOnce_ok by assumption. unfold final_state. cbn.
      repeat split; reflexivity.
    + rewrite run_pollOnce_fail by assumption. unfold final_state. cbn.
      repeat split; reflexivity.
  - unfold pollOnce. rewrite Hid. unfold final_state. cbn. repeat split; reflexivity.
Qed.

Lemma error_toasts_app (tr1 tr2 : list Event) :
  List.filter is_error_toast (tr1 ++ tr2)
  = (List.filter is_error_toast tr1 ++ List.filter is_error_toast tr2)%list.
Proof. apply List.filter_app. Qed.

Lemma error_toasts_lookup_trace (net : Request -> Transport) (tok id : jsval) :
  List.filter is_error_toast (lookup_trace net tok id) = [].
Proof. unfold lookup_trace. destruct (is_not_found _); reflexivity. Qed.

(** X11: a poll is silent and stays within the job.  Whatever the server
    answers, [pollOnce] returns normally, never shows an error (a failed
    cycle is dropped without a word), and never changes the job id, the job's
    required and optional sets, the form or the busy flag; without a job id
    it does nothing at all, not even a request. *)
Theorem pollOnce_silent_and_framed (net : Request -> Transport) (rd : Render)
    (id : jsval) (w : Wizard) :
  let r := run net (pollOnce rd id) w in
  result r = Returned tt
  /\ List.filter is_error_toast (trace r) = []
  /\ jobId (final_state r) = jobId w
  /\ jobMeta (final_state r) = jobMeta w
  /\ jobType (final_state r) = jobType w
  /\ inputs (final_state r) = inputs w
  /\ busy (final_state r) = busy w
  /\ (truthy id = false -> r = (Returned tt, w, []))
  /\ (truthy id = true -> r_ok (lookup_result net (token rd) id) = false ->
      final_state r = w).
Proof.
  intros r. subst r.
  destruct (pollOnce_frame net rd id w) as (H1 & H2 & H3 & H4 & H5).
  destruct (truthy id) eqn:Hid.
  - destruct (r_ok (lookup_result net (token rd) id)) eqn:Hok.
    + split; [rewrite run_pollOnce_ok by assumption; reflexivity|].
      split.
      { rewrite run_pollOnce_ok by assumption. unfold trace. cbn [fst snd].
        rewrite error_toasts_app, error_toasts_lookup_trace.
        unfold poll_emitted. destruct (poll_fires _ _ _); reflexivity. }
      repeat split; try assumption; intros; discriminate.
    + split; [rewrite run_pollOnce_fail by assumption; reflexivity|].
      split.
      { rewrite run_pollOnce_fail by assumption. unfold trace. cbn [fst snd].
        apply error_toasts_lookup_trace. }
      repeat split; try assumption; intros; try discriminate.
      rewrite run_pollOnce_fail by assumption. reflexivity.
  - unfold pollOnce. rewrite Hid. cbn.
    repeat split; intros; try reflexivity; discriminate.
Qed.

(** X12: a refresh that fails changes nothing and says so: the cells are
    left as they were and exactly one error is shown; without a job id the
    refresh does nothing at all.  In every case the refresh leaves the job
    id, the job's sets, the busy flag and the auto-download latch alone. *)
Theorem refreshUploads_failure_keeps_cells (net : Request -> Transport) (rd : Render)
    (id : jsval) (w : Wizard) :
  let r := run net (refreshUploads rd id) w in
  (truthy id = false -> r = (Returned tt, w, []))
  /\ (truthy id = true ->
      r_ok (api_result (net (list_request (token rd) id))) = false ->
      final_state r = w
      /\ trace r
         = [ENet (list_request (token rd) id);
            EToastError ("uploads/list failed: "
                         ++ ToString (r_error (api_result
                                                 (net (list_request (token rd) id)))))])
  /\ jobId (final_state r) = jobId w
  /\ jobMeta (final_state r) = jobMeta w
  /\ busy (final_state r) = busy w
  /\ autoDownloadedRef (final_state r) = autoDownloadedRef w.
Proof.
  intros r. subst r.
  destruct (refreshUploads_frame net rd id w) as (_ & _ & H3 & H4 & H5 & H6).
  split; [|split].
  - intros Hid. unfold refreshUploads. rewrite Hid. reflexivity.
  - intros Hid Hfail. rewrite run_refreshUploads by exact Hid. cbn zeta.
    rewrite Hfail. split; reflexivity.
  - repeat split; assumption.
Qed.

(** X9: the busy flag never stays stuck.  Started with the flag down,
    [onInit], [onSubmit] and [onUpload] all end with the flag down, whatever
    the server answers and whichever way they leave. *)
Theorem handlers_release_busy (net : Request -> Transport) (rd : Render)
    (fileSet file : jsval) (w : Wizard) :
  busy w = false ->
  busy (final_state (run net (onInit rd) w)) = false
  /\ busy (final_state (run net (onSubmit rd) w)) = false
  /\ busy (final_state (run net (onUpload rd fileSet file) w)) = false.
Proof.
  intros Hbusy. split; [|split].
  - destruct (app_access (g rd) || is_admin (g rd)) eqn:Hg.
    + destruct (truthy (token rd)) eqn:Ht.
      * rewrite run_onInit_pass by assumption. unfold final_state, after_init. cbn.
        destruct (r_ok _); reflexivity.
      * rewrite run_onInit_no_token by assumption. exact Hbusy.
    + apply orb_false_elim in Hg as [Ha Hb].
      rewrite run_onInit_blocked by assumption. exact Hbusy.
  - destruct (truthy (jobId (snapshot rd))) eqn:Hid.
    + destruct (truthy (js_length (missingRequired (snapshot rd) ||| JArr []))) eqn:Hc.
      * rewrite run_onSubmit_stops by assumption.
        destruct (refreshUploads_frame net rd (jobId (snapshot rd)) w)
          as (_ & _ & _ & _ & Hb & _).
        destruct (js_join _ _); unfold final_state at 1; cbn [fst snd];
          rewrite Hb; exact Hbusy.
      * rewrite run_onSubmit_proceeds by assumption. cbn zeta.
        destruct (r_ok _).
        -- unfold final_state at 1. cbn [fst snd].
           destruct (pollOnce_frame net rd (jobId (snapshot rd))
                       (setStatus (JStr "pending_review")
                          (setBusy false
                             (setBusy true
                                (final_state
                                   (run net (refreshUploads rd (jobId (snapshot rd))) w))))))
             as (_ & _ & _ & _ & Hb).
           rewrite Hb. reflexivity.
        -- reflexivity.
    + unfold onSubmit. rewrite Hid. exact Hbusy.
  - destruct (truthy (jobId (snapshot rd))) eqn:Hid.
    + destruct (truthy file) eqn:Hfile.
      * rewrite run_onUpload by assumption. cbn zeta.
        destruct (r_ok _).
        -- unfold final_state at 1. cbn [fst snd].
           destruct (refreshUploads_frame net rd (jobId (snapshot rd))
                       (setBusy false (setBusy true w)))
             as (_ & _ & _ & _ & Hb & _).
           rewrite Hb. reflexivity.
        -- reflexivity.
      * unfold onUpload. rewrite Hid, Hfile. exact Hbusy.
    + unfold onUpload. rewrite Hid. exact Hbusy.
Qed.

(** ** Init replaces the job *)

(** X10: a successful init replaces the job wholesale: the job id, the
    required and optional sets, the missing sets come from the response, the
    uploaded files are emptied and the status is [draft], so nothing of the
    previous job survives (two runs that differ only in the previous job end
    in the same cells).  A failed init leaves every field of the current job
    as it was and shows one error. *)
Theorem onInit_replaces_job_wholesale (net : Request -> Transport) (rd : Render) :
  app_access (g rd) || is_admin (g rd) = true -> truthy (token rd) = true ->
  let r := api_result (net (init_request rd)) in
  (r_ok r = true ->
   (forall w : Wizard,
      let W := final_state (run net (onInit rd) w) in
      jobId W = js_oget (r_data r) "job_id"
      /\ uploads W = JArr []
      /\ missingRequired W = js_oget (r_data r) "required" ||| JArr []
      /\ js_oget (jobMeta W) "required" = js_oget (r_data r) "required" ||| JArr []
      /\ js_oget (jobMeta W) "optional" = js_oget (r_data r) "optional" ||| JArr []
      /\ status W = JStr "draft")
   /\ (forall w1 w2 : Wizard,
         jobType w1 = jobType w2 -> inputs w1 = inputs w2 ->
         final_state (run net (onInit rd) w1) = final_state (run net (onInit rd) w2)))
  /\ (r_ok r = false ->
      forall w : Wizard,
        let W := final_state (run net (onInit rd) w) in
        jobId W = jobId w /\ jobMeta W = jobMeta w /\ uploads W = uploads w
        /\ missingRequired W = missingRequired w /\ status W = status w
        /\ List.filter is_error_toast (trace (run net (onInit rd) w))
           = [EToastError ("uploads/init failed: " ++ ToString (r_error r))]).
Proof.
  intros Hg Ht r. split.
  - intros Hok. split.
    + intros w W. subst W. rewrite run_onInit_pass by assumption.
      unfold final_state, after_init. cbn [fst snd]. fold r. rewrite Hok. cbn.
      repeat split; reflexivity.
    + intros w1 w2 Hjt Hin. rewrite !run_onInit_pass by assumption.
      unfold final_state, after_init. cbn [fst snd]. fold r. rewrite Hok, Hjt, Hin.
      reflexivity.
  - intros Hfail w W. subst W. rewrite run_onInit_pass by assumption.
    unfold final_state, trace, after_init. cbn [fst snd]. fold r. rewrite Hfail.
    cbn -[ToString String.append]. repeat split; reflexivity.
Qed.

(** ** Submit that fails *)

(** X13: the status becomes [pending_review] only on a successful submit.
    Without a job [onSubmit] sends nothing.  With a job and nothing missing
    in the render, when the submit request fails the handler shows the error,
    does not poll, and leaves the status as the refresh left it. *)
Theorem onSubmit_failure_keeps_status (net : Request -> Transport) (rd : Render)
    (w : Wizard) :
  (truthy (jobId (snapshot rd)) = false ->
   run net (onSubmit rd) w = (Returned tt, w, [EToastError "Create a job first (Init)."]))
  /\ (truthy (jobId (snapshot rd)) = true ->
      truthy (js_length (missingRequired (snapshot rd) ||| JArr [])) = false ->
      let id := jobId (snapshot rd) in
      r_ok (api_result (net (submit_request (token rd) id))) = false ->
      requests (trace (run net (onSubmit rd) w))
      = [ENet (list_request (token rd) id); ENet (submit_request (token rd) id)]
      /\ status (final_state (run net (onSubmit rd) w))
         = status (final_state (run net (refreshUploads rd id) w))
      /\ downloads (trace (run net (onSubmit rd) w)) = []).
Proof.
  split.
  - intros Hid. unfold onSubmit. rewrite Hid. reflexivity.
  - intros Hid Hc id Hfail. rewrite run_onSubmit_proceeds by assumption.
    cbn zeta. fold id. rewrite Hfail.
    unfold trace at 1 3, final_state at 1. cbn [fst snd].
    rewrite run_refreshUploads by exact Hid. cbn zeta.
    unfold requests, downloads.
    destruct (r_ok (api_result (net (list_request (token rd) id))));
      unfold trace, final_state; cbn; repeat split; reflexivity.
Qed.

(** ** Where the app starts *)

Lemma page_load_eq (st : Storage) (u : Url) :
  page_load st u
  = mkApp (first_step (tokenFromUrl u) (loadSession st) st) (loadSession st) true st u.
Proof. reflexivity. Qed.

Lemma tokenFromUrl_absent (u : Url) :
  searchParams_get "token" u = JNull -> tokenFromUrl u = JNull.
Proof. intros H. unfold tokenFromUrl. rewrite H. reflexivity. Qed.

Lemma truthy_oget (v : jsval) (k : string) :
  truthy (js_oget v k) = true -> truthy v = true.
Proof. destruct v; cbn; try discriminate; reflexivity. Qed.

(** At the step [app] after a page load, the dashboard is rendered: the
    step is chosen only for a session that carries a grant. *)
Lemma page_load_renders_Dashboard (st : Storage) (u : Url) :
  renders_Dashboard (page_load st u) = String.eqb (step (page_load st u)) "app".
Proof.
  unfold renders_Dashboard. rewrite page_load_eq. cbn [step session].
  unfold first_step.
  destruct (truthy (tokenFromUrl u)); [reflexivity|].
  destruct (truthy (js_oget (loadSession st) "access")) eqn:Ha; [|reflexivity].
  rewrite (truthy_oget _ _ Ha).
  destruct (truthy (js_oget (loadSession st) "session_token" ||| loadSessionToken st));
    reflexivity.
Qed.

Lemma page_load_mounted_eq (st : Storage) (u : Url) :
  page_load_mounted st u
  = mkApp (first_step (tokenFromUrl u) (loadSession st) st) (loadSession st) true
          (if String.eqb (first_step (tokenFromUrl u) (loadSession st) st) "app"
           then saveAutoDownload (JBool (loadAutoDownload st)) st else st)
          u.
Proof.
  unfold page_load_mounted. cbn zeta. rewrite page_load_renders_Dashboard.
  rewrite page_load_eq. cbn [step].
  destruct (String.eqb _ "app"); reflexivity.
Qed.

(** Storing the preference that was loaded changes no key but the
    preference's, and not what [loadAutoDownload] reads. *)
Lemma save_loaded_autoDownload (st : Storage) :
  loadAutoDownload (saveAutoDownload (JBool (loadAutoDownload st)) st)
    = loadAutoDownload st
  /\ (forall k : string, k <> LS_KEYS.autoDownload ->
        items (saveAutoDownload (JBool (loadAutoDownload st)) st) !! k = items st !! k)
  /\ denied (saveAutoDownload (JBool (loadAutoDownload st)) st) = denied st
  /\ quota_full (saveAutoDownload (JBool (loadAutoDownload st)) st) = quota_full st
  /\ (denied st = false -> quota_full st = false ->
      items (saveAutoDownload (JBool (loadAutoDownload st)) st) !! LS_KEYS.autoDownload
        = Some (if loadAutoDownload st then "true" else "false")).
Proof.
  destruct (denied st) eqn:Hd; [|destruct (quota_full st) eqn:Hq].
  - assert (Hsame : saveAutoDownload (JBool (loadAutoDownload st)) st = st).
    { unfold saveAutoDownload.
      destruct (setItem_refused st LS_KEYS.autoDownload
                  (ToString (JBool (truthy (JBool (loadAutoDownload st)))))
                  (or_introl Hd)) as [e ->].
      reflexivity. }
    rewrite Hsame. repeat split; try assumption; try reflexivity. discriminate.
  - assert (Hsame : saveAutoDownload (JBool (loadAutoDownload st)) st = st).
    { unfold saveAutoDownload.
      destruct (setItem_refused st LS_KEYS.autoDownload
                  (ToString (JBool (truthy (JBool (loadAutoDownload st)))))
                  (or_intror Hq)) as [e ->].
      reflexivity. }
    rewrite Hsame. repeat split; try assumption; try reflexivity. discriminate.
  - unfold saveAutoDownload. rewrite setItem_writable by assumption.
    cbn [catch items denied quota_full truthy].
    split; [|split; [|split; [|split]]].
    + unfold loadAutoDownload at 1, getItem. cbn [catch denied items].
      rewrite lookup_insert_eq. destruct (loadAutoDownload st); reflexivity.
    + intros k Hk. apply lookup_insert_ne. congruence.
    + reflexivity.
    + reflexivity.
    + intros _ _. rewrite lookup_insert_eq. destruct (loadAutoDownload st); reflexivity.
Qed.

(** X4: where a page load lands, and what it writes before any response
    from the network.  A one-time token in the address always wins and leads
    to the verify step, whatever is stored.  Without one, the app opens only
    if the stored session snapshot carries an access grant and a session
    token is at hand (in the snapshot or stored on its own); a stored token
    without a snapshot that carries a grant leads to the login step.  The
    session cell is the stored snapshot.  A load that lands on the login or
    the verify step leaves the store as it was.  A load that lands on the app
    step mounts the dashboard, whose effect stores the auto-download
    preference as it was loaded: on a store that accepts writes the
    preference key then holds ["true"] or ["false"], also when it was absent
    before.  In every case no other key changes, the preference that
    [loadAutoDownload] reads is the one it read before the load, and the
    address is not changed. *)
Theorem page_load_first_step (st : Storage) (u : Url) :
  (truthy (tokenFromUrl u) = true -> step (page_load_mounted st u) = "verify")
  /\ (truthy (tokenFromUrl u) = false ->
      truthy (js_oget (loadSession st) "access") = false ->
      step (page_load_mounted st u) = "login")
  /\ (truthy (tokenFromUrl u) = false ->
      truthy (js_oget (loadSession st) "access") = true ->
      step (page_load_mounted st u)
      = if truthy (js_oget (loadSession st) "session_token")
           || truthy (loadSessionToken st)
        then "app" else "login")
  /\ session (page_load_mounted st u) = loadSession st
  /\ (step (page_load_mounted st u) <> "app" -> storage (page_load_mounted st u) = st)
  /\ (step (page_load_mounted st u) = "app" ->
      storage (page_load_mounted st u)
        = saveAutoDownload (JBool (loadAutoDownload st)) st
      /\ (denied st = false -> quota_full st = false ->
          items (storage (page_load_mounted st u)) !! LS_KEYS.autoDownload
            = Some (if loadAutoDownload st then "true" else "false")))
  /\ loadAutoDownload (storage (page_load_mounted st u)) = loadAutoDownload st
  /\ (forall k : string, k <> LS_KEYS.autoDownload ->
        items (storage (page_load_mounted st u)) !! k = items st !! k)
  /\ denied (storage (page_load_mounted st u)) = denied st
  /\ quota_full (storage (page_load_mounted st u)) = quota_full st
  /\ location (page_load_mounted st u) = u
  /\ (searchParams_get "token" u = JNull -> tokenFromUrl u = JNull).
Proof.
  rewrite page_load_mounted_eq. cbn [step session storage location].
  destruct (save_loaded_autoDownload st) as (Hload & Hframe & Hden & Hquota & Hkey).
  split; [unfold first_step; intros ->; reflexivity|].
  split; [unfold first_step; intros -> ->; reflexivity|].
  split.
  { unfold first_step. intros -> ->. cbn [andb]. unfold js_or.
    destruct (truthy (js_oget (loadSession st) "session_token")) eqn:Hs.
    - rewrite Hs. reflexivity.
    - cbn [orb]. destruct (truthy (loadSessionToken st)); reflexivity. }
  split; [reflexivity|].
  split.
  { intros Hstep. destruct (String.eqb_spec (first_step (tokenFromUrl u) (loadSession st) st) "app");
      [contradiction | reflexivity]. }
  split.
  { intros Hstep. rewrite Hstep. split; [reflexivity | exact Hkey]. }
  destruct (String.eqb (first_step (tokenFromUrl u) (loadSession st) st) "app").
  - repeat (split; [assumption || reflexivity|]). apply tokenFromUrl_absent.
  - repeat (split; [reflexivity|]). apply tokenFromUrl_absent.
Qed.

Lemma loadSession_stored (st : Storage) (raw : string) :
  denied st = false -> items st !! LS_KEYS.session = Some raw ->
  loadSession st = catch (JSON_parse raw) JNull.
Proof.
  intros Hd Hraw. unfold loadSession, getItem. rewrite Hd. cbn. rewrite Hraw.
  unfold safeJsonParse, js_or. cbn.
  destruct (String.eqb_spec raw ""); subst; reflexivity.
Qed.

Lemma loadSession_missing (st : Storage) :
  denied st = false -> items st !! LS_KEYS.session = None ->
  loadSession st = catch (JSON_parse "") JNull.
Proof.
  intros Hd Hraw. unfold loadSession, getItem. rewrite Hd. cbn. rewrite Hraw.
  reflexivity.
Qed.

(** X5: a reload after a successful verify does not verify again, and opens
    the app when the grant came with the token.  Provided the store accepts
    writes and the platform reads back the session it serialised, the address
    left by [onVerified] yields no one-time token, the reloaded session cell
    is the stored snapshot, and the page load lands on the app step when that
    snapshot carries an access grant, on the login step when it carries
    none. *)
Theorem reload_after_verify (net : Request -> Transport) (now : string)
    (magic : jsval) (a : App) (tok : string) (loaded : jsval) :
  truthy magic = true ->
  r_ok (api_result (net (verify_request magic))) = true ->
  js_oget (r_data (api_result (net (verify_request magic)))) "session_token" = JStr tok ->
  tok <> "" ->
  denied (storage a) = false -> quota_full (storage a) = false ->
  let payload := r_data (api_result (net (verify_request magic))) in
  let sess := JObj [("email", js_oget payload "email");
                    ("access", js_oget payload "access");
                    ("app_url", js_oget payload "app_url");
                    ("verified_at", JStr now);
                    ("session_token", JStr tok)] in
  JSON_parse (JSON_stringify sess) = Normal loaded ->
  let A := final_state (run net (VerifyScreen now magic) a) in
  tokenFromUrl (location A) = JNull
  /\ session (page_load (storage A) (location A)) = loaded
  /\ (truthy (js_oget loaded "access") = true ->
      step (page_load (storage A) (location A)) = "app")
  /\ (truthy (js_oget loaded "access") = false ->
      step (page_load (storage A) (location A)) = "login").
Proof.
  intros Hmagic Hok Htoken Hne Hd Hq payload sess Hparse A. subst A.
  rewrite run_VerifyScreen by exact Hmagic. cbn zeta. rewrite Hok. fold payload.
  assert (Htruthy : truthy (js_oget payload "session_token") = true).
  { subst payload. rewrite Htoken. cbn.
    destruct (String.eqb_spec tok ""); [contradiction | reflexivity]. }
  rewrite run_onVerified_token by exact Htruthy.
  unfold final_state. cbn [fst snd storage location setLoading].
  subst payload. rewrite Htoken. fold sess.
  rewrite storage_after_verify by assumption.
  set (st' := mkStorage _ false false).
  assert (Hurl : tokenFromUrl (searchParams_delete "token" (location a)) = JNull).
  { apply tokenFromUrl_absent. apply searchParams_delete_get. }
  assert (Hload : loadSession st' = loaded).
  { rewrite (loadSession_stored st' (JSON_stringify sess)).
    - rewrite Hparse. reflexivity.
    - reflexivity.
    - subst st'. cbn [items]. apply lookup_insert_eq. }
  assert (Htok : truthy (loadSessionToken st') = true).
  { subst st'. unfold loadSessionToken, getItem. cbn [denied items catch].
    rewrite lookup_insert_ne by discriminate. rewrite lookup_insert_eq.
    cbn. unfold js_or. cbn.
    destruct (String.eqb_spec tok ""); [contradiction|]. cbn.
    destruct (String.eqb_spec tok ""); [contradiction | reflexivity]. }
  rewrite page_load_eq, Hurl, Hload. cbn [session step]. unfold first_step.
  cbn [truthy].
  split; [reflexivity|]. split; [reflexivity|]. split.
  - intros Ha. rewrite Ha. cbn [andb]. unfold js_or.
    destruct (truthy (js_oget loaded "session_token")) eqn:Hs.
    + rewrite Hs. reflexivity.
    + rewrite Htok. reflexivity.
  - intros Ha. rewrite Ha. reflexivity.
Qed.

(** X6: a reload after logout lands on the login step.  On an accessible
    store, with no one-time token in the address and a platform whose
    [JSON.parse] rejects the empty text, the page load after [logout] finds
    no session and no token. *)
Theorem reload_after_logout (net : Request -> Transport) (a : App) (e : string) :
  denied (storage a) = false ->
  truthy (tokenFromUrl (location a)) = false ->
  JSON_parse "" = Abrupt e ->
  let A := final_state (run net logout a) in
  session (page_load (storage A) (location A)) = JNull
  /\ loadSessionToken (storage A) = JNull
  /\ step (page_load (storage A) (location A)) = "login".
Proof.
  intros Hd Hurl Hparse A. subst A. rewrite run_logout.
  unfold final_state. cbn [fst snd storage location].
  rewrite (clear_accessible _ Hd).
  set (st' := mkStorage _ false _).
  assert (Hload : loadSession st' = JNull).
  { rewrite (loadSession_missing st').
    - rewrite Hparse. reflexivity.
    - reflexivity.
    - subst st'. cbn [items]. rewrite lookup_delete_ne by discriminate.
      apply lookup_delete_eq. }
  assert (Htok : loadSessionToken st' = JNull).
  { subst st'. unfold loadSessionToken, getItem. cbn [denied items catch].
    rewrite lookup_delete_eq. reflexivity. }
  rewrite page_load_eq, Hload. cbn [session step]. unfold first_step.
  rewrite Hurl. split; [reflexivity|]. split; [exact Htok | reflexivity].
Qed.

(** ** Verifying again *)

Lemma searchParams_delete_twice (name : string) (u : Url) :
  searchParams_delete name (searchParams_delete name u) = searchParams_delete name u.
Proof.
  unfold searchParams_delete. cbn [url_base searchParams url_hash]. f_equal.
  induction (searchParams u) as [|[k v] rest IH]; cbn; [reflexivity|].
  destruct (String.eqb k name) eqn:E; cbn; [exact IH|].
  rewrite E. cbn. f_equal. exact IH.
Qed.

Lemma put_refused (st : Storage) (k v : string) :
  denied st = true \/ quota_full st = true -> catch (setItem st k v) st = st.
Proof.
  intros Href. destruct (setItem_refused st k v Href) as [e ->]. reflexivity.
Qed.

Lemma put_writable (st : Storage) (k v : string) :
  denied st = false -> quota_full st = false ->
  catch (setItem st k v) st = mkStorage (<[k := v]> (items st)) false false.
Proof. intros Hd Hq. rewrite setItem_writable by assumption. reflexivity. Qed.

Lemma save_over_saved (t1 t2 sess1 sess2 : jsval) (st : Storage) :
  truthy t1 = true -> truthy t2 = true ->
  saveSession sess2 (saveSessionToken t2 (saveSession sess1 (saveSessionToken t1 st)))
  = saveSession sess2 (saveSessionToken t2 st).
Proof.
  intros H1 H2. unfold saveSession, saveSessionToken. rewrite H1, H2.
  cbn [negb].
  destruct (denied st) eqn:Hd; [rewrite !(put_refused st) by auto; reflexivity|].
  destruct (quota_full st) eqn:Hq; [rewrite !(put_refused st) by auto; reflexivity|].
  rewrite !(put_writable st) by assumption.
  rewrite !put_writable by reflexivity.
  cbn [items]. f_equal.
  apply map_eq. intros k. rewrite !lookup_insert.
  repeat case_decide; congruence.
Qed.

(** X15: verifying again overwrites the session wholesale.  After two
    successful verifications in a row the app is in exactly the state the
    second one alone would have produced: the store holds the second token
    and the second session, with no trace of the first. *)
Theorem reverification_overwrites (net : Request -> Transport) (now1 now2 : string)
    (payload1 payload2 : jsval) (a : App) :
  truthy (js_oget payload1 "session_token") = true ->
  truthy (js_oget payload2 "session_token") = true ->
  final_state (run net (onVerified now2 payload2)
                   (final_state (run net (onVerified now1 payload1) a)))
  = final_state (run net (onVerified now2 payload2) a).
Proof.
  intros H1 H2. rewrite !run_onVerified_token by assumption.
  unfold final_state. cbn [fst snd storage location loading].
  rewrite searchParams_delete_twice. f_equal.
  apply save_over_saved; assumption.
Qed.

(** ** Admin Panel *)

Lemma truthy_JStr (s : string) : truthy (JStr s) = negb (String.eqb s "").
Proof. reflexivity. Qed.

(** X16: [approve] needs a job id.  When the typed id is empty or only
    white space it shows an error and sends nothing; otherwise it sends one
    approve request, carrying the trimmed id, and ends with the busy flag
    down and the queue untouched, whether the request succeeds or fails. *)
Theorem approve_requires_job_id (net : Request -> Transport) (ar : AdminRender)
    (a : Admin) :
  let id := js_trim (admin_jobId (admin_snapshot ar)) in
  (id = "" ->
   run net (approve ar) a = (Returned tt, a, [EToastError "Enter a job_id."]))
  /\ (id <> "" ->
      requests (trace (run net (approve ar) a)) = [ENet (approve_request (admin_token ar) id)]
      /\ admin_busy (final_state (run net (approve ar) a)) = false
      /\ queue (final_state (run net (approve ar) a)) = queue a
      /\ admin_jobId (final_state (run net (approve ar) a)) = admin_jobId a).
Proof.
  intros id. unfold approve. fold id. rewrite truthy_JStr. split.
  - intros ->. reflexivity.
  - intros Hne. destruct (String.eqb_spec id ""); [contradiction|]. cbn [negb].
    change (apiFetch ROUTES.adminApprove "POST" _ (admin_token ar))
      with (@Fetch Admin _ (approve_request (admin_token ar) id)
                   (fun t => Ret (api_result t))).
    generalize (approve_request (admin_token ar) id). intros q.
    cbn -[ToString String.append].
    destruct (r_ok (api_result (net q))); unfold trace, final_state; cbn;
      repeat split; reflexivity.
Qed.

(** X17: the admin panel exists only for admins.  For a session whose grant
    has no truthy [subscription.admin] the component renders nothing and
    creates no handler; for one that has, its handlers use the session's
    token, or else the stored one. *)
Theorem AdminPanel_only_for_admins (sess : jsval) (st : Storage) (a : Admin) :
  (truthy (js_oget (js_oget (js_oget sess "access") "subscription") "admin") = false ->
   AdminPanel sess st a = Normal None)
  /\ (truthy (js_oget (js_oget (js_oget sess "access") "subscription") "admin") = true ->
      AdminPanel sess st a
      = Normal (Some (mkAdminRender
                        (js_oget sess "session_token" ||| loadSessionToken st ||| JNull)
                        a))).
Proof.
  unfold AdminPanel. rewrite featureGate_eq. cbn.
  split; intros ->; reflexivity.
Qed.

(** ** Advisor chat *)

(** X18: [send] does nothing for an empty or blank message, and stops with
    an error, before any request, when the tier has no advisor chatbot and
    the user is no admin, or when no session token is at hand; in all three
    cases the conversation is left as it was. *)
Theorem send_blocked_before_network (net : Request -> Transport) (cr : ChatRender)
    (c : Chat) :
  let message := js_trim (chat_input (chat_snapshot cr)) in
  (message = "" -> run net (send cr) c = (Returned tt, c, []))
  /\ (message <> "" ->
      advisor_chatbot (chat_g cr) = false -> is_admin (chat_g cr) = false ->
      run net (send cr) c
      = (Returned tt, c, [EToastError "Advisor Chatbot is not included in your tier."]))
  /\ (message <> "" ->
      advisor_chatbot (chat_g cr) || is_admin (chat_g cr) = true ->
      truthy (chat_token cr) = false ->
      run net (send cr) c
      = (Returned tt, c, [EToastError "Missing session token. Please sign in again."])).
Proof.
  intros message. unfold send. fold message. rewrite truthy_JStr.
  split; [intros ->; reflexivity|].
  split.
  - intros Hne Ha Hb. destruct (String.eqb_spec message ""); [contradiction|].
    rewrite Ha, Hb. reflexivity.
  - intros Hne Hg Ht. destruct (String.eqb_spec message ""); [contradiction|].
    rewrite Ht.
    destruct (advisor_chatbot (chat_g cr)), (is_admin (chat_g cr));
      try discriminate; reflexivity.
Qed.

(** X19: a message that is sent always gets an answer in the conversation.
    When [send] passes its checks it sends one chat request, whose body is
    the conversation the render saw followed by the new message; when it
    ends, the conversation has grown by exactly two messages, the user's
    (trimmed) and then the assistant's (the reply, [No reply.] when the
    response has none, or the error in parentheses), added after whatever the
    conversation held by then; the input is empty and the loading flag
    down. *)
Theorem send_appends_question_and_answer (net : Request -> Transport) (cr : ChatRender)
    (c : Chat) :
  let message := js_trim (chat_input (chat_snapshot cr)) in
  message <> "" ->
  advisor_chatbot (chat_g cr) || is_admin (chat_g cr) = true ->
  truthy (chat_token cr) = true ->
  let q := chat_request (chat_token cr) (msgs (chat_snapshot cr)) message in
  let r := api_result (net q) in
  let answer := if r_ok r
                then ToString (js_oget (r_data r) "reply" ||| JStr "No reply.")
                else "(Error) " ++ ToString (r_error r) in
  run net (send cr) c
  = (Returned tt,
     mkChat (chat_open c)
            (msgs c ++ [mkMsg "user" message; mkMsg "assistant" answer])
            "" false,
     [ENet q]).
Proof.
  intros message Hne Hg Ht q r answer. unfold send. fold message.
  rewrite truthy_JStr, Ht.
  destruct (String.eqb_spec message ""); [contradiction|].
  replace (negb (advisor_chatbot (chat_g cr)) && negb (is_admin (chat_g cr))) with false
    by (destruct (advisor_chatbot (chat_g cr)), (is_admin (chat_g cr));
        try discriminate; reflexivity).
  cbn [negb].
  change (apiFetch ROUTES.chat "POST" _ (chat_token cr))
    with (@Fetch Chat _ q (fun t => Ret (api_result t))).
  subst answer r. clearbody q.
  cbn -[ToString String.append].
  destruct (r_ok (api_result (net q))); cbn -[ToString String.append];
    unfold appendMsg, setChatLoading, setChatInput;
    cbn [chat_open msgs chat_input chat_loading];
    rewrite <- app_assoc; reflexivity.
Qed.

(** ** Login *)

Lemma requestMagicLink_fetch {S} (e : string) :
  @requestMagicLink S e = Fetch (link_request e) (fun t => Ret (api_result t)).
Proof. reflexivity. Qed.

(** X20: the login form validates the email before any request.  The email
    is trimmed and lower-cased; when the result is empty or has no [@] the
    form reports it through [onError] and sends nothing.  Otherwise it sends
    one link request carrying the normalised email and lowers its loading
    flag; a failure is reported through [onError], a success is handed to
    [onRequested] with the normalised email and the response's
    [ttl_seconds]. *)
Theorem LoginScreen_validates_email (net : Request -> Transport)
    (onRequested : string -> jsval -> async Login unit) (l l0 : Login) :
  let e := toLowerCase (js_trim (email l)) in
  (e = "" \/ js_includes e "@" = false ->
   run net (LoginScreen_submit onRequested toastError l) l0
   = (Returned tt, l0, [EToastError "Please enter a valid email."]))
  /\ (e <> "" -> js_includes e "@" = true ->
      let r := api_result (net (link_request e)) in
      (r_ok r = false ->
       run net (LoginScreen_submit onRequested toastError l) l0
       = (Returned tt, mkLogin (email l0) false,
          [ENet (link_request e);
           EToastError ("Magic link failed: " ++ ToString (r_error r))]))
      /\ (r_ok r = true ->
          run net (LoginScreen_submit onRequested toastError l) l0
          = let '(o, l1, tr) :=
              run net (onRequested e (js_oget (r_data r) "ttl_seconds"))
                  (mkLogin (email l0) false) in
            (o, l1, ENet (link_request e) :: tr))).
Proof.
  intros e. unfold LoginScreen_submit. fold e. rewrite truthy_JStr. split.
  - intros [->|Hno].
    + reflexivity.
    + rewrite Hno. rewrite orb_true_r. reflexivity.
  - intros Hne Hat. destruct (String.eqb_spec e ""); [contradiction|].
    rewrite Hat. cbn [negb orb].
    rewrite requestMagicLink_fetch.
    generalize (link_request e). intros q.
    cbn -[ToString String.append]. split; intros Hr; rewrite Hr.
    + reflexivity.
    + cbn -[ToString String.append].
      destruct (run net (onRequested e _) _) as [[o l1] tr]. reflexivity.
Qed.

(** ** Polling with the preference off *)

Lemma requests_app (tr1 tr2 : list Event) :
  requests (tr1 ++ tr2) = (requests tr1 ++ requests tr2)%list.
Proof. unfold requests. apply List.filter_app. Qed.

Lemma requests_lookup_trace (net : Request -> Transport) (tok id : jsval) :
  requests (lookup_trace net tok id) = lookup_trace net tok id.
Proof. unfold lookup_trace. destruct (is_not_found _); reflexivity. Qed.

(** X21: with the auto-download preference off, a poll never starts a
    download and never sets the latch, whatever it observes: all it emits
    are its requests.  So a job delivered while the preference is off can
    still be auto-downloaded once after the preference is turned on. *)
Theorem pollOnce_without_autoDownload (net : Request -> Transport) (rd : Render)
    (id : jsval) (w : Wizard) :
  autoDownloadEnabled rd = false ->
  let r := run net (pollOnce rd id) w in
  downloads (trace r) = []
  /\ requests (trace r) = trace r
  /\ autoDownloadedRef (final_state r) = autoDownloadedRef w.
Proof.
  intros Hoff r. subst r.
  destruct (truthy id) eqn:Hid.
  - destruct (r_ok (lookup_result net (token rd) id)) eqn:Hok.
    + rewrite run_pollOnce_ok by assumption. unfold trace, final_state. cbn [fst snd].
      unfold poll_emitted, poll_applied, poll_fires. rewrite Hoff. cbn.
      rewrite app_nil_r, downloads_lookup_trace, requests_lookup_trace, orb_false_r.
      repeat split; reflexivity.
    + rewrite run_pollOnce_fail by assumption. unfold trace, final_state. cbn [fst snd].
      rewrite downloads_lookup_trace, requests_lookup_trace. repeat split; reflexivity.
  - unfold pollOnce. rewrite Hid. cbn. repeat split; reflexivity.
Qed.

(** ** Submit that succeeds *)

(** X22: after a successful submit the status is the optimistic
    [pending_review] unless the poll that follows brings a status from the
    server, which then wins.  The requests are, in order, the listing, the
    submit and the status lookup. *)
Theorem onSubmit_success_reconciles (net : Request -> Transport) (rd : Render)
    (w : Wizard) :
  truthy (jobId (snapshot rd)) = true ->
  truthy (js_length (missingRequired (snapshot rd) ||| JArr [])) = false ->
  let id := jobId (snapshot rd) in
  r_ok (api_result (net (submit_request (token rd) id))) = true ->
  let looked := lookup_result net (token rd) id in
  status (final_state (run net (onSubmit rd) w))
  = (if r_ok looked && truthy (polled_status (r_data looked))
     then polled_status (r_data looked)
     else JStr "pending_review")
  /\ requests (trace (run net (onSubmit rd) w))
     = (ENet (list_request (token rd) id) :: ENet (submit_request (token rd) id)
          :: lookup_trace net (token rd) id)%list
  /\ In (EToastOk "Submitted for admin approval.") (trace (run net (onSubmit rd) w)).
Proof.
  intros Hid Hc id Hok looked.
  rewrite run_onSubmit_proceeds by assumption. cbn zeta. fold id. rewrite Hok.
  unfold final_state at 1, trace at 1 3. cbn [fst snd].
  set (w2 := setStatus _ _).
  assert (Hreq1 : requests (trace (run net (refreshUploads rd id) w))
                  = [ENet (list_request (token rd) id)]).
  { rewrite run_refreshUploads by exact Hid. cbn zeta.
    destruct (r_ok (api_result (net (list_request (token rd) id)))); reflexivity. }
  destruct (r_ok looked) eqn:Hl; subst looked.
  - rewrite run_pollOnce_ok by assumption.
    unfold final_state at 1, trace at 2 4. cbn [fst snd andb].
    split; [|split].
    + unfold poll_applied. cbn [status]. subst w2. cbn [status setStatus].
      destruct (truthy (polled_status _)); reflexivity.
    + rewrite requests_app, Hreq1. cbn [app requests List.filter is_request].
      fold (requests (lookup_trace net (token rd) id
                      ++ poll_emitted rd id
                           (r_data (lookup_result net (token rd) id)) w2)).
      rewrite requests_app, requests_lookup_trace.
      unfold poll_emitted. destruct (poll_fires _ _ _); cbn; rewrite app_nil_r;
        reflexivity.
    + apply in_or_app. right. right. left. reflexivity.
  - rewrite run_pollOnce_fail by assumption.
    unfold final_state at 1, trace at 2 4. cbn [fst snd andb].
    split; [reflexivity|]. split.
    + rewrite requests_app, Hreq1. cbn [app requests List.filter is_request].
      fold (requests (lookup_trace net (token rd) id)).
      rewrite requests_lookup_trace. reflexivity.
    + apply in_or_app. right. right. left. reflexivity.
Qed.

End Platform.

(** * The program on concrete inputs *)

(** The scenario of the specification: init creates [job_1] with
    [financials] required; submit stops with the missing-sets error and sends
    no submit request; once the set is uploaded and the component has
    rendered the refreshed listing, submit goes through and the status
    becomes [pending_review]. *)
Example scenario_init_upload_submit :
  let w0 := setInputs sector_inputs Wizard_mount in
  final_state (run (answers [(init_url, init_job_1)])
                   (onInit default_API_BASE json_text (demo_render true w0)) w0)
    = job_1_draft
  /\ trace (run (answers [(list_job_1, listing_incomplete)])
                (onSubmit default_API_BASE json_text (demo_render true job_1_draft))
                job_1_draft)
     = [ENet (list_request default_API_BASE (JStr "tok1") (JStr "job_1"));
        EToastError "Missing required file sets: financials"]
  /\ final_state (run (answers [(list_job_1, listing_complete)])
                      (refreshUploads default_API_BASE json_text
                         (demo_render true job_1_draft) (JStr "job_1"))
                      job_1_draft)
     = job_1_complete
  /\ (let r := run (answers [(list_job_1, listing_complete); (submit_url, ack);
                             (status_job_1, pending_review)])
                   (onSubmit default_API_BASE json_text (demo_render true job_1_complete))
                   job_1_complete in
      status (final_state r) = JStr "pending_review"
      /\ requests (trace r)
         = [ENet (list_request default_API_BASE (JStr "tok1") (JStr "job_1"));
            ENet (submit_request default_API_BASE json_text (JStr "tok1") (JStr "job_1"));
            ENet (status_request default_API_BASE (JStr "tok1") (JStr "job_1"))]).
Proof. vm_compute. repeat split; reflexivity. Qed.

(** [onInit] clears the latch before it sends its request: an init whose
    request fails leaves the job as it was and the latch cleared. *)
Example failed_init_clears_latch :
  let w := set_autoDownloadedRef true (setStatus (JStr "delivered") job_1_complete) in
  let w' := final_state (run (always Aborted)
                             (onInit default_API_BASE json_text (demo_render true w)) w) in
  jobId w' = JStr "job_1" /\ status w' = JStr "delivered"
  /\ autoDownloadedRef w = true /\ autoDownloadedRef w' = false.
Proof. vm_compute. repeat split; reflexivity. Qed.

(** C3: the check of [onSubmit] does not see what its forced refresh fetched.
    With [financials] missing in the render but uploaded out of band, the
    refresh stores an empty set in the cell and the handler still stops with
    the missing-sets error, sending no submit request.  With nothing missing
    in the render while the server reports [financials] missing, the refresh
    stores that set in the cell and the handler still sends the submit
    request. *)
Theorem onSubmit_check_ignores_refreshed_sets :
  (let r := run (answers [(list_job_1, listing_complete); (submit_url, ack);
                          (status_job_1, generating)])
                (onSubmit default_API_BASE json_text (demo_render true job_1_draft))
                job_1_draft in
   missingRequired (final_state r) = JArr []
   /\ trace r = [ENet (list_request default_API_BASE (JStr "tok1") (JStr "job_1"));
                 EToastError "Missing required file sets: financials"])
  /\ (let r := run (answers [(list_job_1, listing_incomplete); (submit_url, ack);
                             (status_job_1, generating)])
                   (onSubmit default_API_BASE json_text (demo_render true job_1_complete))
                   job_1_complete in
      missingRequired (final_state r) = JArr [JStr "financials"]
      /\ requests (trace r)
         = [ENet (list_request default_API_BASE (JStr "tok1") (JStr "job_1"));
            ENet (submit_request default_API_BASE json_text (JStr "tok1") (JStr "job_1"));
            ENet (status_request default_API_BASE (JStr "tok1") (JStr "job_1"))]).
Proof. split; split; vm_compute; reflexivity. Qed.

(** C2, counterexample: a poll for [job_1] is in flight when a second init
    replaces the job by [job_2]; its response then arrives.  A direct
    [delivered] answer overwrites the status of [job_2] and starts the
    download of [job_1]; an answer through the listing fallback also
    overwrites the uploaded files and the missing required sets. *)
Lemma stale_poll_response_overwrites_new_job :
  exists k : Transport -> async Wizard unit,
    advance (pollOnce default_API_BASE json_text (demo_render true job_1_draft)
                      (JStr "job_1")) job_1_draft
      = InFlight (status_request default_API_BASE (JStr "tok1") (JStr "job_1"))
                 k job_1_draft []
    /\ final_state (run (answers [(init_url, init_job_2)])
                        (onInit default_API_BASE json_text (demo_render true job_1_draft))
                        job_1_draft)
       = job_2_draft
    /\ (let r := run (answers []) (k delivered) job_2_draft in
        jobId (final_state r) = JStr "job_2"
        /\ status (final_state r) = JStr "delivered"
        /\ status (final_state r) <> status job_2_draft
        /\ downloads (trace r)
           = [ENavigate
                "https://api.strategythrust.com/jobs/download?job_id=job_1&token=tok1"])
    /\ (let r := run (answers [(list_job_1, listing_delivered)])
                     (k (Responded 404 JNull)) job_2_draft in
        jobId (final_state r) = JStr "job_2"
        /\ uploads (final_state r) = JArr [financials_file]
        /\ uploads (final_state r) <> uploads job_2_draft
        /\ missingRequired (final_state r) = JArr []
        /\ missingRequired (final_state r) <> missingRequired job_2_draft).
Proof.
  eexists. split; [reflexivity|].
  split; [vm_compute; reflexivity|].
  split; vm_compute; repeat split; try reflexivity; discriminate.
Qed.


(** C5, counterexample: grants that do not have the shape of an access
    grant and still do not yield the all-restrictive default: one with a
    top-level [tier] and no [features], one with [subscription.admin] and no
    [features]. *)
Lemma featureGate_malformed_grant_not_default :
  ~ (forall access : jsval,
       spec_well_formed_grant access = false ->
       featureGate access = Normal no_capabilities)
  /\ (spec_well_formed_grant (JObj [("tier", JStr "gold")]) = false
      /\ featureGate (JObj [("tier", JStr "gold")])
         = Normal (mkCapabilities false (JStr "gold") false false false false))
  /\ (spec_well_formed_grant (JObj [("subscription", JObj [("admin", JBool true)])]) = false
      /\ featureGate (JObj [("subscription", JObj [("admin", JBool true)])])
         = Normal (mkCapabilities false (JStr "none") false false false true)).
Proof.
  split.
  - intros H. specialize (H (JObj [("tier", JStr "gold")]) eq_refl). discriminate H.
  - repeat split; reflexivity.
Qed.

(** C8, counterexample: the same successful listing, which carries no
    status, leaves the status at [draft] in one run and at [pending_review]
    in another: the status is not taken from the response.  Likewise a
    successful poll whose response carries only a status leaves the uploaded
    files and the missing required sets as they were. *)
Lemma response_without_field_overwrites_nothing :
  (let net := answers [(list_job_1, listing_without_status)] in
   let w1 := job_1_draft in
   let w2 := setStatus (JStr "pending_review") job_1_draft in
   status (final_state (run net (refreshUploads default_API_BASE json_text
                                   (demo_render true w1) (JStr "job_1")) w1))
     = JStr "draft"
   /\ status (final_state (run net (refreshUploads default_API_BASE json_text
                                      (demo_render true w2) (JStr "job_1")) w2))
      = JStr "pending_review")
  /\ (let net := answers [(status_job_1, generating)] in
      let W := final_state (run net (pollOnce default_API_BASE json_text
                                       (demo_render true job_1_complete) (JStr "job_1"))
                                job_1_complete) in
      status W = JStr "generating"
      /\ uploads W = JArr [financials_file]
      /\ uploads W = uploads job_1_complete
      /\ missingRequired W = missingRequired job_1_complete).
Proof. vm_compute. repeat split; reflexivity. Qed.

(** ** The theorems at concrete inputs *)

Lemma poll_cycles_fire_once_witness :
  let rd := demo_render true job_1_complete in
  let cycles := [(rd, always delivered); (rd, always delivered); (rd, always delivered)] in
  downloads (snd (poll_cycles default_API_BASE json_text (JStr "job_1") cycles
                              job_1_complete))
    = [ENavigate "https://api.strategythrust.com/jobs/download?job_id=job_1&token=tok1"]
  /\ autoDownloadedRef
       (fst (poll_cycles default_API_BASE json_text (JStr "job_1") cycles job_1_complete))
     = true.
Proof.
  apply (proj1 (poll_cycles_fire_once default_API_BASE json_text)).
  - reflexivity.
  - reflexivity.
  - repeat constructor.
Defined.

Lemma failed_init_rearms_delivery_trigger_witness :
  let rd := demo_render true job_1_complete in
  let r1 := run (always delivered)
                (pollOnce default_API_BASE json_text rd (JStr "job_1")) job_1_complete in
  let r2 := run (always Aborted) (onInit default_API_BASE json_text rd) (final_state r1) in
  let r3 := run (always delivered)
                (pollOnce default_API_BASE json_text rd (JStr "job_1")) (final_state r2) in
  jobId job_1_complete = JStr "job_1"
  /\ autoDownloadedRef job_1_complete = false
  /\ jobId (final_state r2) = JStr "job_1"
  /\ downloads (trace r1 ++ trace r2 ++ trace r3)
     = [ENavigate "https://api.strategythrust.com/jobs/download?job_id=job_1&token=tok1";
        ENavigate "https://api.strategythrust.com/jobs/download?job_id=job_1&token=tok1"].
Proof.
  intros rd r1 r2 r3. split; [reflexivity|]. split; [reflexivity|].
  destruct (failed_init_rearms_delivery_trigger default_API_BASE json_text
              rd rd rd (always delivered) (always Aborted) (always delivered)
              job_1_complete
              eq_refl eq_refl eq_refl eq_refl eq_refl eq_refl eq_refl eq_refl eq_refl)
    as (_ & (H2 & _) & _ & H4).
  split; [exact H2 | exact H4].
Defined.

Lemma late_poll_response_applied_without_guard_witness :
  truthy (JStr "job_1") = true
  /\ exists k : Transport -> async Wizard unit,
       forall w : Wizard,
         advance (pollOnce default_API_BASE json_text (demo_render true job_1_draft)
                           (JStr "job_1")) w
         = InFlight (status_request default_API_BASE (JStr "tok1") (JStr "job_1")) k w [].
Proof.
  split; [reflexivity|].
  destruct (late_poll_response_applied_without_guard default_API_BASE json_text
              (demo_render true job_1_draft) (JStr "job_1") eq_refl) as (k & Hk & _).
  exists k. exact Hk.
Defined.


Lemma featureGate_total_and_derived_witness :
  is_object JNull = false /\ featureGate JNull = Normal no_capabilities.
Proof.
  split; [reflexivity|].
  apply (proj1 (proj2 (featureGate_total_and_derived JNull))). reflexivity.
Defined.

Lemma onInit_checks_before_network_witness :
  let rd := blocked_render Wizard_mount in
  app_access (g rd) = false /\ is_admin (g rd) = false
  /\ run (always ack) (onInit default_API_BASE json_text rd) Wizard_mount
     = (Returned tt, Wizard_mount,
        [EToastError "Access blocked: subscription is not active."]).
Proof.
  intros rd. split; [reflexivity|]. split; [reflexivity|].
  apply (proj1 (onInit_checks_before_network default_API_BASE json_text
                  (always ack) rd Wizard_mount)); reflexivity.
Defined.

Lemma jobsStatus_fallback_only_on_404_witness :
  let net := answers [(status_job_1, Responded 404 JNull);
                      (list_job_1, listing_incomplete)] in
  is_not_found (net (status_request default_API_BASE (JStr "tok1") (JStr "job_1"))) = true
  /\ r_status (api_result
                 (net (status_request default_API_BASE (JStr "tok1") (JStr "job_1"))))
     = 404.
Proof.
  intros net. split; [reflexivity|].
  apply (proj1 (proj2 (proj2 (proj2
           (jobsStatus_fallback_only_on_404 default_API_BASE json_text net
              (JStr "tok1") (JStr "job_1") Wizard_mount))))).
  reflexivity.
Defined.

Lemma server_response_overwrites_what_it_carries_witness :
  let net := answers [(list_job_1, listing_complete)] in
  let rd := demo_render true job_1_draft in
  let W := final_state (run net (refreshUploads default_API_BASE json_text rd (JStr "job_1"))
                            job_1_draft) in
  truthy (JStr "job_1") = true
  /\ uploads W = JArr [financials_file]
  /\ missingRequired W = JArr []
  /\ status W = JStr "draft".
Proof.
  intros net rd W. split; [reflexivity|].
  apply (proj1 (server_response_overwrites_what_it_carries default_API_BASE json_text)
           net rd (JStr "job_1") job_1_draft); reflexivity.
Defined.

Lemma failed_verify_writes_nothing_witness :
  let a := App_verifying empty_storage in
  let A := final_state
             (run (always Aborted)
                  (VerifyScreen default_API_BASE json_text "2026-01-01T00:00:00.000Z"
                                (JStr "magic-1")) a) in
  truthy (JStr "magic-1") = true
  /\ storage A = storage a
  /\ step A = "login".
Proof.
  intros a A. split; [reflexivity|].
  destruct (failed_verify_writes_nothing default_API_BASE json_text (always Aborted)
              "2026-01-01T00:00:00.000Z" (JStr "magic-1") a eq_refl
              (or_introl eq_refl)) as (H1 & _ & H3 & _).
  split; assumption.
Defined.

Lemma loadAutoDownload_default_enabled_witness :
  denied storage_auto_off = false
  /\ items storage_auto_off !! LS_KEYS.autoDownload = Some "false"
  /\ loadAutoDownload storage_auto_off = false.
Proof.
  split; [reflexivity|]. split; [apply lookup_singleton_eq|].
  apply (proj1 (proj2 (proj2 (loadAutoDownload_default_enabled storage_auto_off)))
           "false" eq_refl (lookup_singleton_eq _ _)).
Defined.

(** ** The further properties at concrete inputs *)

Lemma autoDownload_roundtrip_witness :
  denied empty_storage = false /\ quota_full empty_storage = false
  /\ loadAutoDownload (saveAutoDownload (JBool false) empty_storage) = false.
Proof.
  split; [reflexivity|]. split; [reflexivity|].
  apply (proj1 (autoDownload_roundtrip (JBool false) empty_storage)); reflexivity.
Defined.

Lemma sessionToken_roundtrip_witness :
  denied empty_storage = false /\ quota_full empty_storage = false
  /\ loadSessionToken (saveSessionToken (JStr "tok1") empty_storage) = JStr "tok1".
Proof.
  split; [reflexivity|]. split; [reflexivity|].
  apply (proj1 (sessionToken_roundtrip empty_storage) "tok1");
    [discriminate | reflexivity | reflexivity].
Defined.

Lemma logout_clears_persisted_session_witness :
  let A := final_state (run (always Aborted) logout App_signed_in) in
  denied (storage App_signed_in) = false
  /\ items (storage A) !! LS_KEYS.sessionToken = None
  /\ loadSessionToken (storage A) = JNull.
Proof.
  intros A. split; [reflexivity|].
  destruct (logout_clears_persisted_session (always Aborted) App_signed_in)
    as (_ & _ & _ & _ & H & _).
  destruct (H eq_refl) as (_ & H2 & H3 & _). split; assumption.
Defined.

Lemma api_result_of_response_witness :
  res_ok 404 = false
  /\ truthy (r_error (api_result (Responded 404 JNull))) = true
  /\ r_error (api_result (Responded 404 JNull)) = JStr "HTTP 404".
Proof.
  split; [reflexivity|].
  destruct (api_result_of_response 404 JNull) as (_ & _ & _ & H).
  destruct (H eq_refl) as (H1 & _ & _ & H4). split; [exact H1|].
  exact (H4 eq_refl).
Defined.


Lemma onUpload_then_refresh_witness :
  let net := answers [(upload_url, ack); (list_job_1, listing_complete)] in
  let rd := demo_render true job_1_draft in
  truthy (jobId (snapshot rd)) = true /\ truthy picked_file = true
  /\ requests (trace (run net (onUpload default_API_BASE json_text form_text rd
                                        (JStr "financials") picked_file) job_1_draft))
     = [ENet (upload_request default_API_BASE form_text (JStr "tok1") (JStr "job_1")
                             (JStr "financials") picked_file);
        ENet (list_request default_API_BASE (JStr "tok1") (JStr "job_1"))].
Proof.
  intros net rd. split; [reflexivity|]. split; [reflexivity|].
  apply (proj2 (proj2 (onUpload_then_refresh default_API_BASE json_text form_text net rd
                         (JStr "financials") picked_file job_1_draft)));
    reflexivity.
Defined.

Lemma pollOnce_silent_and_framed_witness :
  let rd := demo_render true job_1_draft in
  truthy (JStr "job_1") = true
  /\ r_ok (lookup_result default_API_BASE (always Aborted) (token rd) (JStr "job_1")) = false
  /\ final_state (run (always Aborted)
                      (pollOnce default_API_BASE json_text rd (JStr "job_1")) job_1_draft)
     = job_1_draft.
Proof.
  intros rd. split; [reflexivity|]. split; [reflexivity|].
  apply (pollOnce_silent_and_framed default_API_BASE json_text (always Aborted) rd
           (JStr "job_1") job_1_draft); reflexivity.
Defined.

Lemma refreshUploads_failure_keeps_cells_witness :
  let rd := demo_render true job_1_draft in
  truthy (JStr "job_1") = true
  /\ final_state (run (always (Responded 503 JNull))
                      (refreshUploads default_API_BASE json_text rd (JStr "job_1"))
                      job_1_draft)
     = job_1_draft
  /\ trace (run (always (Responded 503 JNull))
                (refreshUploads default_API_BASE json_text rd (JStr "job_1")) job_1_draft)
     = [ENet (list_request default_API_BASE (JStr "tok1") (JStr "job_1"));
        EToastError "uploads/list failed: HTTP 503"].
Proof.
  intros rd. split; [reflexivity|].
  apply (proj1 (proj2 (refreshUploads_failure_keeps_cells default_API_BASE json_text
                         (always (Responded 503 JNull)) rd (JStr "job_1") job_1_draft)));
    reflexivity.
Defined.

Lemma handlers_release_busy_witness :
  let net := always (Responded 500 JNull) in
  let rd := demo_render true job_1_complete in
  busy job_1_complete = false
  /\ busy (final_state (run net (onSubmit default_API_BASE json_text rd) job_1_complete))
     = false.
Proof.
  intros net rd. split; [reflexivity|].
  apply (handlers_release_busy default_API_BASE json_text form_text net rd
           (JStr "financials") picked_file job_1_complete).
  reflexivity.
Defined.

Lemma onInit_replaces_job_wholesale_witness :
  let net := answers [(init_url, init_job_2)] in
  let rd := demo_render true job_1_complete in
  app_access (g rd) || is_admin (g rd) = true /\ truthy (token rd) = true
  /\ r_ok (api_result (net (init_request default_API_BASE json_text rd))) = true
  /\ final_state (run net (onInit default_API_BASE json_text rd) job_1_complete)
     = final_state (run net (onInit default_API_BASE json_text rd) job_1_delivered).
Proof.
  intros net rd. split; [reflexivity|]. split; [reflexivity|]. split; [reflexivity|].
  apply (proj2 (proj1 (onInit_replaces_job_wholesale default_API_BASE json_text net rd
                         eq_refl eq_refl) eq_refl)); reflexivity.
Defined.

Lemma onSubmit_failure_keeps_status_witness :
  let net := answers [(list_job_1, listing_complete);
                      (submit_url, Responded 409 (JObj [("error", JStr "conflict")]))] in
  let rd := demo_render true job_1_complete in
  truthy (jobId (snapshot rd)) = true
  /\ requests (trace (run net (onSubmit default_API_BASE json_text rd) job_1_complete))
     = [ENet (list_request default_API_BASE (JStr "tok1") (JStr "job_1"));
        ENet (submit_request default_API_BASE json_text (JStr "tok1") (JStr "job_1"))]
  /\ status (final_state (run net (onSubmit default_API_BASE json_text rd) job_1_complete))
     = JStr "draft".
Proof.
  intros net rd. split; [reflexivity|].
  destruct (proj2 (onSubmit_failure_keeps_status default_API_BASE json_text net rd
                     job_1_complete) eq_refl eq_refl eq_refl) as (H1 & H2 & _).
  split; [exact H1|]. rewrite H2. reflexivity.
Defined.

Lemma page_load_first_step_witness :
  let st := saveSession json_text demo_session (storage App_signed_in) in
  (truthy (tokenFromUrl verify_address) = true
   /\ step (page_load_mounted json_parse st verify_address) = "verify")
  /\ (step (page_load_mounted json_parse st app_address) = "app"
      /\ items st !! LS_KEYS.autoDownload = None
      /\ items (storage (page_load_mounted json_parse st app_address))
           !! LS_KEYS.autoDownload = Some "true").
Proof.
  intros st.
  pose proof (page_load_first_step json_parse st verify_address) as (Hv & _).
  pose proof (page_load_first_step json_parse st app_address)
    as (_ & _ & Happ & _ & _ & Hstore & _).
  assert (Hstep : step (page_load_mounted json_parse st app_address) = "app").
  { rewrite Happ; vm_compute; reflexivity. }
  split; [split; [reflexivity | apply Hv; reflexivity]|].
  split; [exact Hstep|]. split; [vm_compute; reflexivity|].
  destruct (Hstore Hstep) as [_ Hkey].
  rewrite Hkey; vm_compute; reflexivity.
Defined.

Lemma reload_after_verify_witness :
  let net := answers [(verify_tok, Responded 200 verify_payload)] in
  let A := final_state
             (run net (VerifyScreen default_API_BASE json_text "2026-01-01T00:00:00.000Z"
                                    (JStr "magic-1"))
                  (App_verifying empty_storage)) in
  denied empty_storage = false /\ quota_full empty_storage = false
  /\ tokenFromUrl (location A) = JNull
  /\ step (page_load json_parse (storage A) (location A)) = "app".
Proof.
  intros net A. split; [reflexivity|]. split; [reflexivity|].
  destruct (reload_after_verify default_API_BASE json_text json_parse net
              "2026-01-01T00:00:00.000Z" (JStr "magic-1") (App_verifying empty_storage)
              "tok1"
              (JObj [("email", JStr "a@b.com"); ("access", demo_access);
                     ("verified_at", JStr "2026-01-01T00:00:00.000Z");
                     ("session_token", JStr "tok1")])
              eq_refl eq_refl eq_refl ltac:(discriminate) eq_refl eq_refl
              ltac:(vm_compute; reflexivity))
    as (H1 & _ & H3 & _).
  split; [exact H1|]. apply H3. reflexivity.
Defined.

Lemma reload_after_logout_witness :
  let A := final_state (run (always Aborted) logout App_signed_in) in
  denied (storage App_signed_in) = false
  /\ json_parse "" = Abrupt "SyntaxError"
  /\ step (page_load json_parse (storage A) (location A)) = "login".
Proof.
  intros A. split; [reflexivity|]. split; [reflexivity|].
  apply (reload_after_logout json_parse (always Aborted) App_signed_in
           "SyntaxError"); reflexivity.
Defined.

Lemma reverification_overwrites_witness :
  let now1 := "2026-01-01T00:00:00.000Z" in
  let now2 := "2026-01-02T00:00:00.000Z" in
  let a := App_verifying empty_storage in
  truthy (js_oget verify_payload "session_token") = true
  /\ truthy (js_oget verify_payload_2 "session_token") = true
  /\ final_state (run (always Aborted) (onVerified json_text now2 verify_payload_2)
                      (final_state (run (always Aborted)
                                        (onVerified json_text now1 verify_payload) a)))
     = final_state (run (always Aborted) (onVerified json_text now2 verify_payload_2) a).
Proof.
  intros now1 now2 a. split; [reflexivity|]. split; [reflexivity|].
  apply (reverification_overwrites json_text (always Aborted)); reflexivity.
Defined.

Lemma approve_requires_job_id_witness :
  js_trim (admin_jobId (admin_snapshot (admin_render "   "))) = ""
  /\ run (always ack) (approve default_API_BASE json_text (admin_render "   "))
         (mkAdmin "   " false (JArr []))
     = (Returned tt, mkAdmin "   " false (JArr []), [EToastError "Enter a job_id."]).
Proof.
  split; [reflexivity|].
  apply (approve_requires_job_id default_API_BASE json_text (always ack)
           (admin_render "   ") (mkAdmin "   " false (JArr []))).
  reflexivity.
Defined.

Lemma AdminPanel_only_for_admins_witness :
  truthy (js_oget (js_oget (js_oget demo_session "access") "subscription") "admin") = false
  /\ AdminPanel demo_session empty_storage Admin_mount = Normal None.
Proof.
  split; [reflexivity|].
  apply (AdminPanel_only_for_admins demo_session empty_storage Admin_mount).
  reflexivity.
Defined.

Lemma send_blocked_before_network_witness :
  let cr := chat_render demo_session "What next?" in
  js_trim (chat_input (chat_snapshot cr)) <> ""
  /\ advisor_chatbot (chat_g cr) = false /\ is_admin (chat_g cr) = false
  /\ run (always ack) (send default_API_BASE json_text cr) (chat_snapshot cr)
     = (Returned tt, chat_snapshot cr,
        [EToastError "Advisor Chatbot is not included in your tier."]).
Proof.
  intros cr. split; [discriminate|]. split; [reflexivity|]. split; [reflexivity|].
  apply (proj1 (proj2 (send_blocked_before_network default_API_BASE json_text
                         (always ack) cr (chat_snapshot cr))));
    [discriminate | reflexivity | reflexivity].
Defined.

Lemma send_appends_question_and_answer_witness :
  let cr := chat_render admin_session " What next? " in
  let net := always (Responded 200 (JObj [("reply", JStr "Do X.")])) in
  js_trim (chat_input (chat_snapshot cr)) <> ""
  /\ truthy (chat_token cr) = true
  /\ msgs (final_state (run net (send default_API_BASE json_text cr) (chat_snapshot cr)))
     = (msgs Chat_mount ++ [mkMsg "user" "What next?"; mkMsg "assistant" "Do X."])%list.
Proof.
  intros cr net. split; [discriminate|]. split; [reflexivity|].
  rewrite (send_appends_question_and_answer default_API_BASE json_text net cr
             (chat_snapshot cr) ltac:(discriminate) eq_refl eq_refl).
  reflexivity.
Defined.

Lemma LoginScreen_validates_email_witness :
  let l := mkLogin "  Nobody " false in
  js_includes (ascii_lowercase (js_trim (email l))) "@" = false
  /\ run (always ack)
         (LoginScreen_submit default_API_BASE json_text ascii_lowercase
                             (fun e _ => toastOk e) toastError l) l
     = (Returned tt, l, [EToastError "Please enter a valid email."]).
Proof.
  intros l. split; [reflexivity|].
  apply (proj1 (LoginScreen_validates_email default_API_BASE json_text ascii_lowercase
                  (always ack) (fun e _ => toastOk e) l l)).
  right. reflexivity.
Defined.

Lemma pollOnce_without_autoDownload_witness :
  let rd := demo_render false job_1_complete in
  let r := run (always delivered) (pollOnce default_API_BASE json_text rd (JStr "job_1"))
               job_1_complete in
  autoDownloadEnabled rd = false
  /\ downloads (trace r) = []
  /\ autoDownloadedRef (final_state r) = false.
Proof.
  intros rd r. split; [reflexivity|].
  destruct (pollOnce_without_autoDownload default_API_BASE json_text (always delivered)
              rd (JStr "job_1") job_1_complete eq_refl) as (H1 & _ & H3).
  split; [exact H1 | exact H3].
Defined.

Lemma onSubmit_success_reconciles_witness :
  let net := answers [(list_job_1, listing_complete); (submit_url, ack);
                      (status_job_1, generating)] in
  let rd := demo_render true job_1_complete in
  truthy (jobId (snapshot rd)) = true
  /\ r_ok (api_result (net (submit_request default_API_BASE json_text (token rd)
                                           (jobId (snapshot rd))))) = true
  /\ status (final_state (run net (onSubmit default_API_BASE json_text rd) job_1_complete))
     = JStr "generating".
Proof.
  intros net rd. split; [reflexivity|]. split; [reflexivity|].
  destruct (onSubmit_success_reconciles default_API_BASE json_text net rd job_1_complete
              eq_refl eq_refl eq_refl) as (H1 & _).
  rewrite H1. reflexivity.
Defined.
